(** * itk::VoronoiSegmentationRGBImageFilter: the homogeneity oracle and its
      configuration interface

    Sources embedded here:
    - [Code/Algorithms/itkVoronoiSegmentationRGBImageFilter.h]: the class
      declaration, its private members and every method whose body is inline
      in the header ([GetMean], [SetMean], [SetTestMean], ...);
    - [Code/Common/itkMacro.h]: [itkSetMacro] and [itkGetMacro], which the
      header expands for [MaxValueOfRGB].

    The bodies of [SetMeanPercentError], [SetVarPercentError], [TakeAPrior],
    [SetInput] and [TestHomogeneity] live in the companion [.txx] file, which
    is not among the sources.  They are modelled from the specification and
    every such definition says so in its comment.

    Numbers.  A C++ [double] (and the [float] of a working-image pixel) is
    idealised as a rational number [Q]: arithmetic is exact, there is no NaN,
    no infinity and no rounding.  The comparison [a != b] of the macro is
    numeric, hence [Qeq_bool] and not syntactic equality of fractions.  An
    [unsigned int] argument is a natural number [N]; the code only stores and
    reads such values, it never does arithmetic on them. *)

From Stdlib Require Import QArith Qminmax Qabs Lqa NArith.
From stdpp Require Import base option list gmap strings.

Open Scope Q_scope.

(** ** Arrays *)

#[global] Instance Q_inhabited : Inhabited Q := populate 0.

(** [for (int i = start; i < start + count; i++) body(i)] over a state [S]. *)
Fixpoint for_loop {S : Type} (body : nat → S → S) (start count : nat) (s : S) : S :=
  match count with
  | O => s
  | Datatypes.S count' => for_loop body (Datatypes.S start) count' (body start s)
  end.

(** [for (int i = 0; i < n; i++) dst[i] = src[i];]

    A read past the end of [src] is undefined in C++; here it yields the
    default element.  A write past the end of [dst] is undefined in C++; here it
    leaves [dst] as it is.  Every statement below is about arrays of the
    declared length, where neither happens. *)
Definition copy_array {A : Type} `{Inhabited A} (n : nat) (src dst : list A) : list A :=
  for_loop (λ i d, <[i := src !!! i]> d) 0 n dst.

(** ** The object *)

(** [itk::Index<2>]: a pair of signed coordinates. *)
Abbreviation Index := (Z * Z)%type (only parsing).

(** [Vector<float,6> RGBHCVPixel], channels in the order
    0:red, 1:green, 2:blue, 3:hue, 4:chroma, 5:value. *)
Abbreviation RGBHCVPixel := (list Q) (only parsing).

(** An input pixel [Vector<PixelType,3>]. *)
Abbreviation RGBPixel := (Q * Q * Q)%type (only parsing).

(** The private members of the class, in the order of their declaration,
    followed by the one member of the superclass [itk::Object] that the
    setters touch: the modification time. *)
Record Filter : Type := mkFilter {
  m_Mean : list Q;
  m_Var : list Q;                (* actually the STD of the object *)
  m_MeanTolerance : list Q;
  m_VarTolerance : list Q;
  m_MeanPercentError : list Q;
  m_VarPercentError : list Q;
  m_MaxValueOfRGB : Q;
  m_TestMean : list N;
  m_TestVar : list N;
  m_WorkingImage : gmap Index RGBHCVPixel;
  m_MTime : N
}.

(** The sizes fixed by the member declarations [double m_X[6]] and
    [unsigned int m_TestX[3]]. *)
Definition well_sized (s : Filter) : Prop :=
  length (m_Mean s) = 6%nat ∧ length (m_Var s) = 6%nat ∧
  length (m_MeanTolerance s) = 6%nat ∧ length (m_VarTolerance s) = 6%nat ∧
  length (m_MeanPercentError s) = 6%nat ∧ length (m_VarPercentError s) = 6%nat ∧
  length (m_TestMean s) = 3%nat ∧ length (m_TestVar s) = 3%nat.

Definition with_Mean (v : list Q) (s : Filter) : Filter :=
  mkFilter v (m_Var s) (m_MeanTolerance s) (m_VarTolerance s)
    (m_MeanPercentError s) (m_VarPercentError s) (m_MaxValueOfRGB s)
    (m_TestMean s) (m_TestVar s) (m_WorkingImage s) (m_MTime s).

Definition with_Var (v : list Q) (s : Filter) : Filter :=
  mkFilter (m_Mean s) v (m_MeanTolerance s) (m_VarTolerance s)
    (m_MeanPercentError s) (m_VarPercentError s) (m_MaxValueOfRGB s)
    (m_TestMean s) (m_TestVar s) (m_WorkingImage s) (m_MTime s).

Definition with_MeanTolerance (v : list Q) (s : Filter) : Filter :=
  mkFilter (m_Mean s) (m_Var s) v (m_VarTolerance s)
    (m_MeanPercentError s) (m_VarPercentError s) (m_MaxValueOfRGB s)
    (m_TestMean s) (m_TestVar s) (m_WorkingImage s) (m_MTime s).

Definition with_VarTolerance (v : list Q) (s : Filter) : Filter :=
  mkFilter (m_Mean s) (m_Var s) (m_MeanTolerance s) v
    (m_MeanPercentError s) (m_VarPercentError s) (m_MaxValueOfRGB s)
    (m_TestMean s) (m_TestVar s) (m_WorkingImage s) (m_MTime s).

Definition with_MeanPercentError (v : list Q) (s : Filter) : Filter :=
  mkFilter (m_Mean s) (m_Var s) (m_MeanTolerance s) (m_VarTolerance s)
    v (m_VarPercentError s) (m_MaxValueOfRGB s)
    (m_TestMean s) (m_TestVar s) (m_WorkingImage s) (m_MTime s).

Definition with_VarPercentError (v : list Q) (s : Filter) : Filter :=
  mkFilter (m_Mean s) (m_Var s) (m_MeanTolerance s) (m_VarTolerance s)
    (m_MeanPercentError s) v (m_MaxValueOfRGB s)
    (m_TestMean s) (m_TestVar s) (m_WorkingImage s) (m_MTime s).

Definition with_MaxValueOfRGB (v : Q) (s : Filter) : Filter :=
  mkFilter (m_Mean s) (m_Var s) (m_MeanTolerance s) (m_VarTolerance s)
    (m_MeanPercentError s) (m_VarPercentError s) v
    (m_TestMean s) (m_TestVar s) (m_WorkingImage s) (m_MTime s).

Definition with_TestMean (v : list N) (s : Filter) : Filter :=
  mkFilter (m_Mean s) (m_Var s) (m_MeanTolerance s) (m_VarTolerance s)
    (m_MeanPercentError s) (m_VarPercentError s) (m_MaxValueOfRGB s)
    v (m_TestVar s) (m_WorkingImage s) (m_MTime s).

Definition with_TestVar (v : list N) (s : Filter) : Filter :=
  mkFilter (m_Mean s) (m_Var s) (m_MeanTolerance s) (m_VarTolerance s)
    (m_MeanPercentError s) (m_VarPercentError s) (m_MaxValueOfRGB s)
    (m_TestMean s) v (m_WorkingImage s) (m_MTime s).

Definition with_WorkingImage (v : gmap Index RGBHCVPixel) (s : Filter) : Filter :=
  mkFilter (m_Mean s) (m_Var s) (m_MeanTolerance s) (m_VarTolerance s)
    (m_MeanPercentError s) (m_VarPercentError s) (m_MaxValueOfRGB s)
    (m_TestMean s) (m_TestVar s) v (m_MTime s).

Definition with_MTime (v : N) (s : Filter) : Filter :=
  mkFilter (m_Mean s) (m_Var s) (m_MeanTolerance s) (m_VarTolerance s)
    (m_MeanPercentError s) (m_VarPercentError s) (m_MaxValueOfRGB s)
    (m_TestMean s) (m_TestVar s) (m_WorkingImage s) v.

(** ** Calls: a state and exception monad *)

Inductive exception : Type :=
  | ConfigurationError.

(** What a call on the object does: it returns a value and leaves the object
    in a new state, or it throws. *)
Inductive outcome (A : Type) : Type :=
  | Returns (a : A) (s : Filter)
  | Throws (e : exception).
Arguments Returns {A} a s.
Arguments Throws {A} e.

Definition method (A : Type) : Type := Filter → outcome A.

#[global] Instance method_ret : MRet method := λ A a s, Returns a s.

#[global] Instance method_bind : MBind method := λ A B k m s,
  match m s with
  | Returns a s' => k a s'
  | Throws e => Throws e
  end.

Definition throw {A : Type} (e : exception) : method A := λ _, Throws e.

(** A statement that only writes members. *)
Definition modify (f : Filter → Filter) : method unit := λ s, Returns tt (f s).

(** Reading a member. *)
Definition read {A : Type} (f : Filter → A) : method A := λ s, Returns (f s) s.

(** ** Methods with a body in the header *)

(** [void GetMeanPercentError(double x[6])]: the caller's array [x] is
    written; the call "returns" that array. *)
Definition GetMeanPercentError (x : list Q) : method (list Q) :=
  read (λ s, copy_array 6 (m_MeanPercentError s) x).

Definition GetVarPercentError (x : list Q) : method (list Q) :=
  read (λ s, copy_array 6 (m_VarPercentError s) x).

Definition GetMean (x : list Q) : method (list Q) :=
  read (λ s, copy_array 6 (m_Mean s) x).

Definition GetVar (x : list Q) : method (list Q) :=
  read (λ s, copy_array 6 (m_Var s) x).

(** [void SetMean(double x[6]){for(int i=0;i<6;i++) m_Mean[i]=x[i];}] *)
Definition SetMean (x : list Q) : method unit :=
  modify (λ s, with_Mean (copy_array 6 x (m_Mean s)) s).

Definition SetVar (x : list Q) : method unit :=
  modify (λ s, with_Var (copy_array 6 x (m_Var s)) s).

Definition GetMeanTolerance (x : list Q) : method (list Q) :=
  read (λ s, copy_array 6 (m_MeanTolerance s) x).

Definition GetVarTolerance (x : list Q) : method (list Q) :=
  read (λ s, copy_array 6 (m_VarTolerance s) x).

(** Modelled from the spec: [itk::Object::Modified()], which is declared in
    [itkObject.h], not among the sources.  The sources show only the call
    [this->Modified()], and the specification keeps object lifecycle
    plumbing out of scope.  The call is taken to change the modification
    time of the object and nothing else, to a time that is not the time
    before it; the time is a counter that [Modified] advances.  No
    statement below depends on by how much. *)
Definition Modified : method unit :=
  modify (λ s, with_MTime (N.succ (m_MTime s)) s).

(** [itkSetMacro(MaxValueOfRGB,double)]:
<<
    if (this->m_MaxValueOfRGB != _arg)
      { this->m_MaxValueOfRGB = _arg; this->Modified(); }
>>
    The [itkDebugMacro] line ahead of the test prints to the output window
    when debugging is on and touches no member; it is left out. *)
Definition SetMaxValueOfRGB (_arg : Q) : method unit :=
  current ← read m_MaxValueOfRGB;
  if negb (Qeq_bool current _arg)
  then modify (with_MaxValueOfRGB _arg) ;; Modified
  else mret tt.

(** [itkGetMacro(MaxValueOfRGB,double)] *)
Definition GetMaxValueOfRGB : method Q := read m_MaxValueOfRGB.

(** [void SetTestMean(unsigned int t1,unsigned int t2,unsigned int t3)] *)
Definition SetTestMean (t1 t2 t3 : N) : method unit :=
  modify (λ s, with_TestMean (<[0%nat := t1]> (m_TestMean s)) s) ;;
  modify (λ s, with_TestMean (<[1%nat := t2]> (m_TestMean s)) s) ;;
  modify (λ s, with_TestMean (<[2%nat := t3]> (m_TestMean s)) s).

Definition SetTestVar (t1 t2 t3 : N) : method unit :=
  modify (λ s, with_TestVar (<[0%nat := t1]> (m_TestVar s)) s) ;;
  modify (λ s, with_TestVar (<[1%nat := t2]> (m_TestVar s)) s) ;;
  modify (λ s, with_TestVar (<[2%nat := t3]> (m_TestVar s)) s).

(** [void GetTestMean(unsigned int x[3])] *)
Definition GetTestMean (x : list N) : method (list N) :=
  read (λ s, <[2%nat := m_TestMean s !!! 2%nat]>
               (<[1%nat := m_TestMean s !!! 1%nat]>
                  (<[0%nat := m_TestMean s !!! 0%nat]> x))).

Definition GetTestVar (x : list N) : method (list N) :=
  read (λ s, <[2%nat := m_TestVar s !!! 2%nat]>
               (<[1%nat := m_TestVar s !!! 1%nat]>
                  (<[0%nat := m_TestVar s !!! 0%nat]> x))).

(** ** Methods whose body is in the [.txx] file

    What follows is modelled from the specification.  Two routines that the
    specification leaves to the platform or leaves open are parameters: the
    square root of the C library, and the hue of a chromatic pixel. *)

(** [a > b] on doubles. *)
Definition Qgt_bool (a b : Q) : bool :=
  match a ?= b with
  | Gt => true
  | _ => false
  end.

(** Modelled from the spec: the policy for a percent error outside [0,1]
    (section 4.3: "reject or clamp out-of-range inputs per configuration
    policy"; "clamping to [0, +inf)" is the clamp it names). *)
Inductive OutOfRangePolicy : Type :=
  | RejectOutOfRange
  | ClampToNonNegative.

(** Modelled from the spec: the policy on one percent error; a rejected
    value gives no result. *)
Definition apply_policy (policy : OutOfRangePolicy) (x : Q) : option Q :=
  match policy with
  | RejectOutOfRange => if Qle_bool 0 x && Qle_bool x 1 then Some x else None
  | ClampToNonNegative => Some (Qmax 0 x)
  end.

(** The six elements [x[0] .. x[5]] of an array argument. *)
Definition elements6 {A : Type} `{Inhabited A} (x : list A) : list A :=
  (λ i, x !!! i) <$> seq 0 6.

(** Modelled from the spec: the ToleranceCalculator of section 4.3, whose
    body is in the [.txx] file: the contract [Compute(Mean, Std,
    MeanPercentError, VarPercentError) -> (MeanTolerance, VarTolerance)], with
    [MeanTolerance[i] = Mean[i] * MeanPercentError[i]] and
    [VarTolerance[i] = Std[i] * VarPercentError[i]] for each channel. *)
Definition ComputeTolerances (Mean Std MeanPercentError VarPercentError : list Q)
  : list Q * list Q :=
  ((λ i, Mean !!! i * MeanPercentError !!! i) <$> seq 0 6,
   (λ i, Std !!! i * VarPercentError !!! i) <$> seq 0 6).

(** Modelled from the spec: the tolerance calculation, missing with the
    [.txx] file, run on the members of the object (section 3: the tolerances
    are "recomputed whenever Mean/Std or the percent-error parameters
    change"). *)
Definition RecomputeTolerances : method unit :=
  modify (λ s,
    let '(mt, vt) := ComputeTolerances (m_Mean s) (m_Var s)
                       (m_MeanPercentError s) (m_VarPercentError s) in
    with_VarTolerance vt (with_MeanTolerance mt s)).

(** Modelled from the spec: [SetMeanPercentError(double x[6])], declared in
    the header, body in the [.txx] file.  It stores the percent errors,
    treated by the policy, and runs the tolerance calculation (sections 3,
    4.3 and 6). *)
Definition SetMeanPercentError (policy : OutOfRangePolicy) (x : list Q)
  : method unit :=
  match mapM (apply_policy policy) (elements6 x) with
  | None => throw ConfigurationError
  | Some x' =>
      modify (λ s, with_MeanPercentError (copy_array 6 x' (m_MeanPercentError s)) s) ;;
      RecomputeTolerances
  end.

(** Modelled from the spec: [SetVarPercentError(double x[6])], as
    [SetMeanPercentError]. *)
Definition SetVarPercentError (policy : OutOfRangePolicy) (x : list Q)
  : method unit :=
  match mapM (apply_policy policy) (elements6 x) with
  | None => throw ConfigurationError
  | Some x' =>
      modify (λ s, with_VarPercentError (copy_array 6 x' (m_VarPercentError s)) s) ;;
      RecomputeTolerances
  end.

(** Modelled from the spec: the accumulated sum of the samples of one
    channel (section 4.2), part of the estimator missing with the [.txx]
    file. *)
Definition Qsum (l : list Q) : Q := foldr Qplus 0 l.

(** Modelled from the spec: the number of samples, as a double. *)
Definition sample_count (l : list Q) : Q := inject_Z (Z.of_nat (length l)).

(** Modelled from the spec: population mean (section 4.2), part of the
    estimator missing with the [.txx] file. *)
Definition population_mean (samples : list Q) : Q :=
  Qsum samples / sample_count samples.

Section Txx.

(** [sqrt] of the C library. *)
Variable sqrt : Q → Q.

(** Modelled from the spec: the hue of a pixel that is not achromatic.
    Section 4.1 calls it "standard piecewise hue computation" and
    section 9 leaves its scale and domain open; arguments are the maximum
    channel value and R, G, B. *)
Variable chromatic_hue : Q → Q → Q → Q → Q.

(** Modelled from the spec: population standard deviation from the sum
    and the sum of squares (section 4.2: "accumulates per-channel sum and
    sum-of-squares ... population mean and standard deviation (not
    sample/Bessel-corrected)"). *)
Definition population_std (samples : list Q) : Q :=
  sqrt (Qsum ((λ v, v * v) <$> samples) / sample_count samples
        - population_mean samples * population_mean samples).

(** Modelled from the spec: the ColorSpaceExpander of section 4.1 on one
    pixel.  V = max(R,G,B), C = max(R,G,B) - min(R,G,B), H = 0 when C = 0. *)
Definition ExpandPixel (maxValue : Q) (p : RGBPixel) : RGBHCVPixel :=
  let '(R, G, B) := p in
  let V := Qmax R (Qmax G B) in
  let C := V - Qmin R (Qmin G B) in
  let H := if Qeq_bool C 0 then 0 else chromatic_hue maxValue R G B in
  [R; G; B; H; C; V].

(** Modelled from the spec: [Expand(inputImage, maxValue) -> workingImage]
    of section 4.1. *)
Definition Expand (inputImage : gmap Index RGBPixel) (maxValue : Q)
  : gmap Index RGBHCVPixel :=
  ExpandPixel maxValue <$> inputImage.

(** Modelled from the spec: [SetInput(InputImagePointer input)], declared
    in the header, body in the [.txx] file.  It rejects a maximum value
    that is not positive and otherwise replaces the working image in full
    (section 4.1). *)
Definition SetInput (input : gmap Index RGBPixel) : method unit :=
  maxValue ← read m_MaxValueOfRGB;
  if Qle_bool maxValue 0
  then throw ConfigurationError
  else modify (with_WorkingImage (Expand input maxValue)).

(** Modelled from the spec: the samples of channel [c] over a list of
    pixels, for the statistics of sections 4.2 and 4.5. *)
Definition channel_samples (c : nat) (pixels : list RGBHCVPixel) : list Q :=
  (λ p : RGBHCVPixel, p !!! c) <$> pixels.

(** Modelled from the spec: the pixels of the working image that the prior
    mask marks "object" (section 4.2), for the missing [TakeAPrior]. *)
Definition masked_pixels (workingImage : gmap Index RGBHCVPixel)
    (priorMask : gmap Index bool) : list RGBHCVPixel :=
  (map_to_list (filter (λ kv, priorMask !! kv.1 = Some true) workingImage)).*2.

(** Modelled from the spec: the StatisticsEstimator of section 4.2,
    [Estimate(workingImage, priorMask) -> (Mean[6], Std[6])]; no result
    when the mask selects zero pixels. *)
Definition Estimate (workingImage : gmap Index RGBHCVPixel)
    (priorMask : gmap Index bool) : option (list Q * list Q) :=
  match masked_pixels workingImage priorMask with
  | [] => None
  | pixels =>
      Some ((λ c, population_mean (channel_samples c pixels)) <$> seq 0 6,
            (λ c, population_std (channel_samples c pixels)) <$> seq 0 6)
  end.

(** Modelled from the spec: [TakeAPrior(BinaryObjectImage* aprior)],
    declared in the header, body in the [.txx] file.  A mask that selects
    no pixel is a configuration error; otherwise the estimates overwrite
    the target statistics (section 3) and the tolerances, which depend on
    them, are recomputed.  The class comment in the header adds that a
    prior also decides which channels are tested; the specification gives
    no rule for that choice and no statement below depends on the state
    that [TakeAPrior] leaves behind. *)
Definition TakeAPrior (aprior : gmap Index bool) : method unit :=
  workingImage ← read m_WorkingImage;
  match Estimate workingImage aprior with
  | None => throw ConfigurationError
  | Some (mean, std) =>
      modify (λ s, with_Mean (copy_array 6 mean (m_Mean s)) s) ;;
      modify (λ s, with_Var (copy_array 6 std (m_Var s)) s) ;;
      RecomputeTolerances
  end.

(** Modelled from the spec: the pixels of a candidate region (section 4.5),
    for the missing [TestHomogeneity].  [GetPixel] outside the image is
    undefined in ITK; here it yields a pixel with no channels, whose
    channels read as 0. *)
Definition region_pixels (workingImage : gmap Index RGBHCVPixel)
    (Plist : list Index) : list RGBHCVPixel :=
  (λ idx, workingImage !!! idx) <$> Plist.

(** Modelled from the spec: "the region's mean over the working image
    restricted to the given indices" (section 4.5, step 2). *)
Definition region_mean (s : Filter) (Plist : list Index) (c : N) : Q :=
  population_mean (channel_samples (N.to_nat c) (region_pixels (m_WorkingImage s) Plist)).

(** Modelled from the spec: "the region's standard deviation over the same
    indices" (section 4.5, step 3), with the population convention of
    section 4.2. *)
Definition region_std (s : Filter) (Plist : list Index) (c : N) : Q :=
  population_std (channel_samples (N.to_nat c) (region_pixels (m_WorkingImage s) Plist)).

(** Modelled from the spec: step 2 of section 4.5 on one channel,
    [|regionMean[c] - Mean[c]| > MeanTolerance[c]]. *)
Definition mean_exceeds (s : Filter) (Plist : list Index) (c : N) : bool :=
  Qgt_bool (Qabs (region_mean s Plist c - m_Mean s !!! N.to_nat c))
           (m_MeanTolerance s !!! N.to_nat c).

(** Modelled from the spec: step 3 of section 4.5 on one channel,
    [|regionStd[c] - Std[c]| > VarTolerance[c]]. *)
Definition std_exceeds (s : Filter) (Plist : list Index) (c : N) : bool :=
  Qgt_bool (Qabs (region_std s Plist c - m_Var s !!! N.to_nat c))
           (m_VarTolerance s !!! N.to_nat c).

(** Modelled from the spec: [TestHomogeneity(IndexList Plist)], declared
    in the header, body in the [.txx] file; the four steps of section
    4.5.  [existsb] stops at the first channel that exceeds. *)
Definition TestHomogeneity (Plist : list Index) : method bool :=
  read (λ s,
    match Plist with
    | [] => false
    | _ =>
        if existsb (mean_exceeds s Plist) (m_TestMean s) then false
        else if existsb (std_exceeds s Plist) (m_TestVar s) then false
        else true
    end).

End Txx.

(** A square root for running the model: exact on a fraction that, in lowest
    terms, has a perfect square as numerator and as denominator; the integer
    roots of numerator and denominator otherwise. *)
Definition Qsqrt_floor (q : Q) : Q :=
  let r := Qred q in
  Z.sqrt (Qnum r) # Pos.sqrt (Qden r).

(** ** A configuration to run the model on *)

(** The value a call returns, when it returns. *)
Definition returned {A : Type} (o : outcome A) : option A :=
  match o with
  | Returns a _ => Some a
  | Throws _ => None
  end.

(** The state a call leaves the object in, when it returns. *)
Definition state_after {A : Type} (o : outcome A) : option Filter :=
  match o with
  | Returns _ s => Some s
  | Throws _ => None
  end.

(** [MeanTolerance[i] = Mean[i] * MeanPercentError[i]] and
    [VarTolerance[i] = Std[i] * VarPercentError[i]] on all six channels. *)
Definition tolerances_consistent (s : Filter) : bool :=
  forallb (λ i,
    Qeq_bool (m_MeanTolerance s !!! i) (m_Mean s !!! i * m_MeanPercentError s !!! i) &&
    Qeq_bool (m_VarTolerance s !!! i) (m_Var s !!! i * m_VarPercentError s !!! i))
    (seq 0 6).

(** The scenario of the specification, section 8: 8-bit channels, target
    mean (100,100,100,0,0,100), target deviation 0, percent errors 0.1, the
    R, G, B channels tested, and a working image of three pixels. *)
Definition scenario : Filter := {|
  m_Mean := [100; 100; 100; 0; 0; 100];
  m_Var := [0; 0; 0; 0; 0; 0];
  m_MeanTolerance := [10; 10; 10; 0; 0; 10];
  m_VarTolerance := [0; 0; 0; 0; 0; 0];
  m_MeanPercentError := [1#10; 1#10; 1#10; 1#10; 1#10; 1#10];
  m_VarPercentError := [1#10; 1#10; 1#10; 1#10; 1#10; 1#10];
  m_MaxValueOfRGB := 255;
  m_TestMean := [0%N; 1%N; 2%N];
  m_TestVar := [0%N; 1%N; 2%N];
  m_WorkingImage :=
    {[ (0%Z, 0%Z) := [100; 100; 100; 0; 0; 100];
       (1%Z, 0%Z) := [100; 100; 100; 0; 0; 100];
       (2%Z, 0%Z) := [120; 120; 120; 0; 0; 120] ]};
  m_MTime := 1%N
|}.

(** The configuration reached from [scenario] by
    [SetMean({250,250,250,0,0,250})], [SetMeanPercentError({0.1,...})] and
    [SetMean({100,100,100,0,0,100})]: the mean tolerances are those of the
    first target mean. *)
Definition stale_configuration : Filter := {|
  m_Mean := [100; 100; 100; 0; 0; 100];
  m_Var := [0; 0; 0; 0; 0; 0];
  m_MeanTolerance := [250 * (1#10); 250 * (1#10); 250 * (1#10);
                      0 * (1#10); 0 * (1#10); 250 * (1#10)];
  m_VarTolerance := [0 * (1#10); 0 * (1#10); 0 * (1#10);
                     0 * (1#10); 0 * (1#10); 0 * (1#10)];
  m_MeanPercentError := [1#10; 1#10; 1#10; 1#10; 1#10; 1#10];
  m_VarPercentError := [1#10; 1#10; 1#10; 1#10; 1#10; 1#10];
  m_MaxValueOfRGB := 255;
  m_TestMean := [0%N; 1%N; 2%N];
  m_TestVar := [0%N; 1%N; 2%N];
  m_WorkingImage := m_WorkingImage scenario;
  m_MTime := 1%N
|}.

(** A configuration with a negative target on the hue channel, exact-match
    tolerances, and the hue, chroma and value channels tested for the mean. *)
Definition negative_target_configuration : Filter := {|
  m_Mean := [50; 60; 70; -1; 20; 70];
  m_Var := [0; 0; 0; 0; 0; 0];
  m_MeanTolerance := [0; 0; 0; 0; 0; 0];
  m_VarTolerance := [0; 0; 0; 0; 0; 0];
  m_MeanPercentError := [0; 0; 0; 0; 0; 0];
  m_VarPercentError := [0; 0; 0; 0; 0; 0];
  m_MaxValueOfRGB := 255;
  m_TestMean := [3%N; 4%N; 5%N];
  m_TestVar := [0%N; 1%N; 2%N];
  m_WorkingImage := {[ (0%Z, 0%Z) := [50; 60; 70; -1; 20; 70] ]};
  m_MTime := 1%N
|}.

(** The policy lets each of [x[0] .. x[5]] through. *)
Definition within_policy (policy : OutOfRangePolicy) (x : list Q) : Prop :=
  ∀ i, (i < 6)%nat → is_Some (apply_policy policy (x !!! i)).

(** Everything but the percent errors and the tolerances is the same in
    [s] and [s']. *)
Definition same_targets (s s' : Filter) : Prop :=
  m_Mean s' = m_Mean s ∧ m_Var s' = m_Var s ∧
  m_TestMean s' = m_TestMean s ∧ m_TestVar s' = m_TestVar s ∧
  m_WorkingImage s' = m_WorkingImage s ∧
  m_MaxValueOfRGB s' = m_MaxValueOfRGB s ∧ m_MTime s' = m_MTime s.

(** The tolerance arrays of [s] are the output of the tolerance calculation
    on the other members of [s]. *)
Definition tolerances_computed (s : Filter) : Prop :=
  (m_MeanTolerance s, m_VarTolerance s) =
  ComputeTolerances (m_Mean s) (m_Var s) (m_MeanPercentError s) (m_VarPercentError s).

(** On the channels selected for the tests: the target statistics are not
    negative and the tolerances are the products of section 4.3. *)
Definition selected_channels_sound (s : Filter) : Prop :=
  (∀ c, c ∈ m_TestMean s →
     0 <= m_Mean s !!! N.to_nat c ∧
     m_MeanTolerance s !!! N.to_nat c
     == m_Mean s !!! N.to_nat c * m_MeanPercentError s !!! N.to_nat c) ∧
  (∀ c, c ∈ m_TestVar s →
     0 <= m_Var s !!! N.to_nat c ∧
     m_VarTolerance s !!! N.to_nat c
     == m_Var s !!! N.to_nat c * m_VarPercentError s !!! N.to_nat c).

(** ** A client of the header's setters *)

(** One call to a setter whose body is in the header. *)
Inductive HeaderSetter : Type :=
  | CallSetMean (x : list Q)
  | CallSetVar (x : list Q)
  | CallSetMaxValueOfRGB (v : Q)
  | CallSetTestMean (t1 t2 t3 : N)
  | CallSetTestVar (t1 t2 t3 : N).

Definition call_setter (c : HeaderSetter) : method unit :=
  match c with
  | CallSetMean x => SetMean x
  | CallSetVar x => SetVar x
  | CallSetMaxValueOfRGB v => SetMaxValueOfRGB v
  | CallSetTestMean t1 t2 t3 => SetTestMean t1 t2 t3
  | CallSetTestVar t1 t2 t3 => SetTestVar t1 t2 t3
  end.

(** The calls of a client, one after the other. *)
Fixpoint call_setters (cs : list HeaderSetter) : method unit :=
  match cs with
  | [] => mret tt
  | c :: cs' => call_setter c ;; call_setters cs'
  end.

Definition is_SetMaxValueOfRGB (c : HeaderSetter) : bool :=
  match c with
  | CallSetMaxValueOfRGB _ => true
  | _ => false
  end.

(** The members other than the one a setter of the header is to write. *)
Definition beside_Mean (s : Filter) :=
  (m_Var s, m_MeanTolerance s, m_VarTolerance s, m_MeanPercentError s,
   m_VarPercentError s, m_MaxValueOfRGB s, m_TestMean s, m_TestVar s,
   m_WorkingImage s, m_MTime s).

Definition beside_Var (s : Filter) :=
  (m_Mean s, m_MeanTolerance s, m_VarTolerance s, m_MeanPercentError s,
   m_VarPercentError s, m_MaxValueOfRGB s, m_TestMean s, m_TestVar s,
   m_WorkingImage s, m_MTime s).

Definition beside_TestMean (s : Filter) :=
  (m_Mean s, m_Var s, m_MeanTolerance s, m_VarTolerance s,
   m_MeanPercentError s, m_VarPercentError s, m_MaxValueOfRGB s,
   m_TestVar s, m_WorkingImage s, m_MTime s).

Definition beside_TestVar (s : Filter) :=
  (m_Mean s, m_Var s, m_MeanTolerance s, m_VarTolerance s,
   m_MeanPercentError s, m_VarPercentError s, m_MaxValueOfRGB s,
   m_TestMean s, m_WorkingImage s, m_MTime s).

(** The members that no setter of the header is to write. *)
Definition derived_members (s : Filter) :=
  (m_MeanTolerance s, m_VarTolerance s, m_MeanPercentError s,
   m_VarPercentError s, m_WorkingImage s).

(** The member a setter of the header writes, by its place in the class. *)
Definition written_member (c : HeaderSetter) : nat :=
  match c with
  | CallSetMean _ => 0
  | CallSetVar _ => 1
  | CallSetMaxValueOfRGB _ => 6
  | CallSetTestMean _ _ _ => 7
  | CallSetTestVar _ _ _ => 8
  end.

(** ** The macros of [itkMacro.h]

    A macro is expanded in a class for a member [m_name] of some [type].
    Its model is a function that takes what the expansion refers to: the
    read and the write of [this->m_name], [this->Modified()] and the
    operators of [type].  The [itkDebugMacro] line, at the head of most
    bodies, prints when debugging is on and touches no member; it is left
    out, as in [SetMaxValueOfRGB] above. *)

Section BuiltinMacros.

Context {Self T : Type}.

(** [this->m_name], read and assigned. *)
Variable get_member : Self → T.
Variable set_member : T → Self → Self.

(** [this->Modified()] *)
Variable modified : Self → Self.

(** [a != b] on [type]. *)
Variable differs : T → T → bool.

(** [itkSetMacro(name,type)]:
<<
    if (this->m_name != _arg) { this->m_name = _arg; this->Modified(); }
>> *)
Definition itkSetMacro (_arg : T) (this : Self) : Self :=
  if differs (get_member this) _arg
  then modified (set_member _arg this)
  else this.

(** [itkGetMacro(name,type)] and [itkGetConstMacro(name,type)]:
    [return this->m_name;] *)
Definition itkGetMacro (this : Self) : T := get_member this.

(** [a < b] and [a > b] on [type]. *)
Variable less greater : T → T → bool.



End BuiltinMacros.

(** [itkBooleanMacro(name)]: [nameOn()] is [SetName(true)] and [nameOff()]
    is [SetName(false)], for whatever [SetName] the class has. *)
Definition itkBooleanMacro_On {Self : Type} (SetName : bool → Self → Self)
  : Self → Self := SetName true.

Definition itkBooleanMacro_Off {Self : Type} (SetName : bool → Self → Self)
  : Self → Self := SetName false.

Section StringMacros.

Context {Self : Type}.

(** [this->m_name], a [std::string]. *)
Variable get_member : Self → string.
Variable set_member : string → Self → Self.
Variable modified : Self → Self.

(** [itkSetStringMacro(name)], with the argument [const char* _arg] as an
    optional string, [None] for the null pointer:
<<
    if ( _arg && (_arg != this->m_name) ) { return;}
    if (_arg) { this->m_name = _arg; } else { this->m_name = <empty>; }
    this->Modified();
>>
    [_arg != this->m_name] compares a [const char*] with a [std::string],
    that is, their characters. *)
Definition itkSetStringMacro (_arg : option string) (this : Self) : Self :=
  match _arg with
  | Some a =>
      if negb (String.eqb a (get_member this))
      then this
      else modified (set_member a this)
  | None => modified (set_member EmptyString this)
  end.

(** [itkGetStringMacro(name)]: [return this->m_name.c_str();] *)
Definition itkGetStringMacro (this : Self) : string := get_member this.

End StringMacros.

Section VectorMacros.

Context {Self T : Type} `{Inhabited T}.

(** [this->m_name], an array of [type]; [this->m_name[i] = v] is the
    assignment of the array with element [i] replaced. *)
Variable get_member : Self → list T.
Variable set_member : list T → Self → Self.
Variable modified : Self → Self.
Variable differs : T → T → bool.

Definition assign (i : nat) (v : T) (this : Self) : Self :=
  set_member (<[i := v]> (get_member this)) this.

(** [itkSetVector2Macro(name,type)], the member with two arguments. *)
Definition itkSetVector2Macro (_arg1 _arg2 : T) (this : Self) : Self :=
  if differs (get_member this !!! 0%nat) _arg1
     || differs (get_member this !!! 1%nat) _arg2
  then assign 1 _arg2 (assign 0 _arg1 (modified this))
  else this.

(** [itkSetVector2Macro(name,type)], the member with an array argument. *)
Definition itkSetVector2Macro_array (_arg : list T) (this : Self) : Self :=
  itkSetVector2Macro (_arg !!! 0%nat) (_arg !!! 1%nat) this.

(** [itkGetVector2Macro(name,type)], the member with two reference
    arguments: the values left in them. *)
Definition itkGetVector2Macro (this : Self) : T * T :=
  (get_member this !!! 0%nat, get_member this !!! 1%nat).

Definition itkSetVector3Macro (_arg1 _arg2 _arg3 : T) (this : Self) : Self :=
  if differs (get_member this !!! 0%nat) _arg1
     || differs (get_member this !!! 1%nat) _arg2
     || differs (get_member this !!! 2%nat) _arg3
  then assign 2 _arg3 (assign 1 _arg2 (assign 0 _arg1 (modified this)))
  else this.

Definition itkSetVector3Macro_array (_arg : list T) (this : Self) : Self :=
  itkSetVector3Macro (_arg !!! 0%nat) (_arg !!! 1%nat) (_arg !!! 2%nat) this.

Definition itkGetVector3Macro (this : Self) : T * T * T :=
  (get_member this !!! 0%nat, get_member this !!! 1%nat,
   get_member this !!! 2%nat).

Definition itkSetVector4Macro (_arg1 _arg2 _arg3 _arg4 : T) (this : Self) : Self :=
  if differs (get_member this !!! 0%nat) _arg1
     || differs (get_member this !!! 1%nat) _arg2
     || differs (get_member this !!! 2%nat) _arg3
     || differs (get_member this !!! 3%nat) _arg4
  then assign 3 _arg4 (assign 2 _arg3 (assign 1 _arg2 (assign 0 _arg1
         (modified this))))
  else this.

Definition itkSetVector4Macro_array (_arg : list T) (this : Self) : Self :=
  itkSetVector4Macro (_arg !!! 0%nat) (_arg !!! 1%nat) (_arg !!! 2%nat)
    (_arg !!! 3%nat) this.

Definition itkGetVector4Macro (this : Self) : T * T * T * T :=
  (get_member this !!! 0%nat, get_member this !!! 1%nat,
   get_member this !!! 2%nat, get_member this !!! 3%nat).

Definition itkSetVector6Macro (_arg1 _arg2 _arg3 _arg4 _arg5 _arg6 : T)
    (this : Self) : Self :=
  if differs (get_member this !!! 0%nat) _arg1
     || differs (get_member this !!! 1%nat) _arg2
     || differs (get_member this !!! 2%nat) _arg3
     || differs (get_member this !!! 3%nat) _arg4
     || differs (get_member this !!! 4%nat) _arg5
     || differs (get_member this !!! 5%nat) _arg6
  then assign 5 _arg6 (assign 4 _arg5 (assign 3 _arg4 (assign 2 _arg3
         (assign 1 _arg2 (assign 0 _arg1 (modified this))))))
  else this.

Definition itkSetVector6Macro_array (_arg : list T) (this : Self) : Self :=
  itkSetVector6Macro (_arg !!! 0%nat) (_arg !!! 1%nat) (_arg !!! 2%nat)
    (_arg !!! 3%nat) (_arg !!! 4%nat) (_arg !!! 5%nat) this.

Definition itkGetVector6Macro (this : Self) : T * T * T * T * T * T :=
  (get_member this !!! 0%nat, get_member this !!! 1%nat,
   get_member this !!! 2%nat, get_member this !!! 3%nat,
   get_member this !!! 4%nat, get_member this !!! 5%nat).

(** The first loop of [itkSetVectorMacro]:
<<
    for (i=0; i<count; i++) { if ( data[i] != this->m_name[i] ) { break; }}
>>
    The result is the value of [i] after the loop, entered with [i] and
    [remaining] iterations to go. *)
Fixpoint scan_difference (data member : list T) (i remaining : nat) : nat :=
  match remaining with
  | O => i
  | Datatypes.S remaining' =>
      if differs (data !!! i) (member !!! i)
      then i
      else scan_difference data member (Datatypes.S i) remaining'
  end.

(** [itkSetVectorMacro(name,type,count)]:
<<
    if ( i < count )
      { this->Modified();
        for (i=0; i<count; i++) { this->m_name[i] = data[i]; } }
>> *)
Definition itkSetVectorMacro (count : nat) (data : list T) (this : Self) : Self :=
  let i := scan_difference data (get_member this) 0 count in
  if (i <? count)%nat
  then for_loop (λ i this', assign i (data !!! i) this') 0 count (modified this)
  else this.

(** [itkGetVectorMacro(name,type,count)]: [return this->m_name;] *)
Definition itkGetVectorMacro (this : Self) : list T := get_member this.

End VectorMacros.

(** A call that [itkSetObjectMacro] makes on the object pointed to.
    [Register] and [UnRegister] are methods of that object, declared outside
    these sources; the calls are recorded, in order. *)
Inductive ReferenceCall : Type :=
  | CallRegister (object : positive)
  | CallUnRegister (object : positive).

Section ObjectMacros.

Context {Self : Type}.

(** [this->m_name], a pointer to an object: an address, or [None] for the
    null pointer. *)
Variable get_member : Self → option positive.
Variable set_member : option positive → Self → Self.
Variable modified : Self → Self.

(** [itkSetObjectMacro(name,type)]:
<<
    if (this->m_name != _arg)
      {
      if (this->m_name != NULL) { this->m_name->UnRegister(this); }
      this->m_name = _arg;
      if (this->m_name != NULL) { this->m_name->Register(this); }
      this->Modified();
      }
>>
    on the object and the record of calls made so far. *)
Definition itkSetObjectMacro (_arg : option positive)
    (state : Self * list ReferenceCall) : Self * list ReferenceCall :=
  let '(this, calls) := state in
  if bool_decide (get_member this ≠ _arg)
  then
    let calls1 := match get_member this with
                  | Some old => calls ++ [CallUnRegister old]
                  | None => calls
                  end in
    let this1 := set_member _arg this in
    let calls2 := match get_member this1 with
                  | Some new => calls1 ++ [CallRegister new]
                  | None => calls1
                  end in
    (modified this1, calls2)
  else (this, calls).

(** [itkGetObjectMacro(name,type)]: [return this->m_name;] *)
Definition itkGetObjectMacro (this : Self) : option positive := get_member this.

End ObjectMacros.

(** Registrations of [object] not yet undone in a record of calls. *)
Fixpoint references_held (calls : list ReferenceCall) (object : positive) : Z :=
  match calls with
  | [] => 0%Z
  | CallRegister o :: calls' =>
      ((if bool_decide (o = object) then 1 else 0) + references_held calls' object)%Z
  | CallUnRegister o :: calls' =>
      ((if bool_decide (o = object) then -1 else 0) + references_held calls' object)%Z
  end.

(** The object pointed to is registered once and no other object is. *)
Definition holds_one_reference (member : option positive)
    (calls : list ReferenceCall) : Prop :=
  ∀ object, references_held calls object
            = if bool_decide (member = Some object) then 1%Z else 0%Z.

(** A class with one member of each kind, to run the macros on: a
    [std::string], an array, an object pointer, and the modification time. *)
Record MacroHost : Type := mkMacroHost {
  m_FileName : string;
  m_Spacing : list Q;
  m_Points : option positive;
  m_HostMTime : N
}.

Definition host_modified (h : MacroHost) : MacroHost :=
  mkMacroHost (m_FileName h) (m_Spacing h) (m_Points h) (N.succ (m_HostMTime h)).

Definition host_set_FileName (v : string) (h : MacroHost) : MacroHost :=
  mkMacroHost v (m_Spacing h) (m_Points h) (m_HostMTime h).

Definition host_set_Spacing (v : list Q) (h : MacroHost) : MacroHost :=
  mkMacroHost (m_FileName h) v (m_Points h) (m_HostMTime h).

Definition host_set_Points (v : option positive) (h : MacroHost) : MacroHost :=
  mkMacroHost (m_FileName h) (m_Spacing h) v (m_HostMTime h).

(** [a != b] on doubles. *)
Definition Qneq_bool (a b : Q) : bool := negb (Qeq_bool a b).

(** * Properties *)

(** ** Arrays and comparisons *)

Lemma elements6_exact {A : Type} `{Inhabited A} (x : list A) :
  length x = 6%nat → elements6 x = x.
Proof.
  intros Hlen.
  do 6 (destruct x as [|? x]; [discriminate Hlen|]).
  destruct x; [reflexivity | discriminate Hlen].
Qed.

(** On arrays of the declared size the copying loop overwrites the whole
    destination with the source. *)
Lemma copy_array_exact {A : Type} `{Inhabited A} (src dst : list A) :
  length src = 6%nat → length dst = 6%nat → copy_array 6 src dst = src.
Proof.
  intros Hsrc Hdst.
  do 6 (destruct src as [|? src]; [discriminate Hsrc|]).
  destruct src; [|discriminate Hsrc].
  do 6 (destruct dst as [|? dst]; [discriminate Hdst|]).
  destruct dst; [reflexivity | discriminate Hdst].
Qed.

Lemma copy_array_length {A : Type} `{Inhabited A} (n : nat) (src dst : list A) :
  length (copy_array n src dst) = length dst.
Proof.
  unfold copy_array. generalize 0%nat. revert dst.
  induction n as [|n IH]; intros dst start; simpl; [reflexivity|].
  rewrite IH. apply length_insert.
Qed.

Lemma Qgt_bool_true (a b : Q) : Qgt_bool a b = true ↔ b < a.
Proof.
  unfold Qgt_bool. rewrite Qgt_alt.
  destruct (a ?= b); split; intros E; try reflexivity; discriminate E.
Qed.

Lemma Qgt_bool_false (a b : Q) : Qgt_bool a b = false ↔ a <= b.
Proof.
  unfold Qgt_bool. rewrite Qle_alt.
  destruct (a ?= b); split; intros E; try reflexivity;
    try discriminate E; try (intros E'; discriminate E'); exfalso; apply E; reflexivity.
Qed.

(** ** Setters and getters of the header *)

Lemma SetMean_returns (x : list Q) (s : Filter) :
  SetMean x s = Returns tt (with_Mean (copy_array 6 x (m_Mean s)) s).
Proof. reflexivity. Qed.

Lemma SetVar_returns (x : list Q) (s : Filter) :
  SetVar x s = Returns tt (with_Var (copy_array 6 x (m_Var s)) s).
Proof. reflexivity. Qed.

Lemma SetMean_well_sized (x : list Q) (s s' : Filter) :
  well_sized s → SetMean x s = Returns tt s' → well_sized s'.
Proof.
  intros Hs E. rewrite SetMean_returns in E. injection E as <-.
  unfold well_sized in *. simpl. rewrite copy_array_length. exact Hs.
Qed.

Lemma SetVar_well_sized (x : list Q) (s s' : Filter) :
  well_sized s → SetVar x s = Returns tt s' → well_sized s'.
Proof.
  intros Hs E. rewrite SetVar_returns in E. injection E as <-.
  unfold well_sized in *. simpl. rewrite copy_array_length. exact Hs.
Qed.

(** C9.  For every 6-element array [X]: [SetMean(X)] followed by
    [GetMean(out)] fills [out] with exactly [X], and the getter leaves the
    object in the state the setter left it in; likewise for [SetVar] and
    [GetVar]. *)
Theorem Set_then_Get_round_trip (X out : list Q) (s : Filter) :
  well_sized s → length X = 6%nat → length out = 6%nat →
  (∃ s1, SetMean X s = Returns tt s1 ∧ GetMean out s1 = Returns X s1 ∧
         (SetMean X ;; GetMean out) s = Returns X s1) ∧
  (∃ s2, SetVar X s = Returns tt s2 ∧ GetVar out s2 = Returns X s2 ∧
         (SetVar X ;; GetVar out) s = Returns X s2).
Proof.
  intros (HM & HV & _) HX Hout. split.
  - exists (with_Mean X s).
    assert (E : SetMean X s = Returns tt (with_Mean X s)).
    { rewrite SetMean_returns, copy_array_exact by assumption. reflexivity. }
    assert (G : GetMean out (with_Mean X s) = Returns X (with_Mean X s)).
    { unfold GetMean, read. simpl. rewrite copy_array_exact by assumption.
      reflexivity. }
    split; [exact E|]. split; [exact G|].
    unfold mbind, method_bind. rewrite E. exact G.
  - exists (with_Var X s).
    assert (E : SetVar X s = Returns tt (with_Var X s)).
    { rewrite SetVar_returns, copy_array_exact by assumption. reflexivity. }
    assert (G : GetVar out (with_Var X s) = Returns X (with_Var X s)).
    { unfold GetVar, read. simpl. rewrite copy_array_exact by assumption.
      reflexivity. }
    split; [exact E|]. split; [exact G|].
    unfold mbind, method_bind. rewrite E. exact G.
Qed.

Lemma Set_then_Get_round_trip_witness :
  ∃ s1, SetMean [1; 2; 3; 4; 5; 6] scenario = Returns tt s1 ∧
        GetMean [0; 0; 0; 0; 0; 0] s1 = Returns [1; 2; 3; 4; 5; 6] s1.
Proof.
  destruct (Set_then_Get_round_trip [1; 2; 3; 4; 5; 6] [0; 0; 0; 0; 0; 0] scenario)
    as [(s1 & E & G & _) _].
  - unfold well_sized. simpl. repeat split; reflexivity.
  - reflexivity.
  - reflexivity.
  - exists s1. split; assumption.
Defined.

(** The getters of the header return without changing the object. *)
Lemma getters_leave_the_object (x : list Q) (y : list N) (s : Filter) :
  state_after (GetMean x s) = Some s ∧ state_after (GetVar x s) = Some s ∧
  state_after (GetMeanPercentError x s) = Some s ∧
  state_after (GetVarPercentError x s) = Some s ∧
  state_after (GetMeanTolerance x s) = Some s ∧
  state_after (GetVarTolerance x s) = Some s ∧
  state_after (GetTestMean y s) = Some s ∧ state_after (GetTestVar y s) = Some s ∧
  GetMaxValueOfRGB s = Returns (m_MaxValueOfRGB s) s.
Proof. repeat split. Qed.

Lemma SetMaxValueOfRGB_unfold (v : Q) (s : Filter) :
  SetMaxValueOfRGB v s =
  if Qeq_bool (m_MaxValueOfRGB s) v
  then Returns tt s
  else Returns tt (with_MTime (N.succ (m_MTime s)) (with_MaxValueOfRGB v s)).
Proof.
  unfold SetMaxValueOfRGB, mbind, method_bind, read.
  destruct (Qeq_bool (m_MaxValueOfRGB s) v); reflexivity.
Qed.

(** C10.  [SetMaxValueOfRGB(v)] with [v] equal to the stored value leaves
    the object exactly as it was, modification time included; with a
    different [v] it stores [v], advances the modification time and changes
    no other member. *)
Theorem SetMaxValueOfRGB_frame (v : Q) (s : Filter) :
  (m_MaxValueOfRGB s == v → SetMaxValueOfRGB v s = Returns tt s) ∧
  (¬ m_MaxValueOfRGB s == v →
   ∃ s', SetMaxValueOfRGB v s = Returns tt s' ∧
         m_MaxValueOfRGB s' = v ∧
         m_MTime s' ≠ m_MTime s ∧
         m_Mean s' = m_Mean s ∧ m_Var s' = m_Var s ∧
         m_MeanTolerance s' = m_MeanTolerance s ∧
         m_VarTolerance s' = m_VarTolerance s ∧
         m_MeanPercentError s' = m_MeanPercentError s ∧
         m_VarPercentError s' = m_VarPercentError s ∧
         m_TestMean s' = m_TestMean s ∧ m_TestVar s' = m_TestVar s ∧
         m_WorkingImage s' = m_WorkingImage s).
Proof.
  rewrite SetMaxValueOfRGB_unfold. split; intros E.
  - apply Qeq_bool_iff in E. rewrite E. reflexivity.
  - destruct (Qeq_bool (m_MaxValueOfRGB s) v) eqn:B.
    + exfalso. apply E, Qeq_bool_iff, B.
    + eexists. split; [reflexivity|]. simpl.
      repeat split; try reflexivity. apply N.neq_succ_diag_l.
Qed.

(** ** What the header's setters leave alone (C2, C3) *)

(** C2, as stated, fails: on a consistent configuration [SetMean] returns with
    a mean tolerance that is no longer [Mean[0] * MeanPercentError[0]]. *)
Lemma SetMean_leaves_tolerance_stale :
  well_sized scenario ∧
  tolerances_consistent scenario = true ∧
  (tolerances_consistent <$>
     state_after (SetMean [200; 200; 200; 0; 0; 200] scenario)) = Some false.
Proof.
  split; [|split].
  - unfold well_sized. simpl. repeat split; reflexivity.
  - vm_compute. reflexivity.
  - vm_compute. reflexivity.
Qed.

(** C2, amended.  [SetMean], [SetVar] and [SetMaxValueOfRGB] return normally
    and recompute nothing: after each of them both tolerance arrays, both
    percent-error arrays and the working image are what they were before
    the call. *)
Theorem setters_recompute_nothing (X : list Q) (v : Q) (s : Filter) :
  (∃ s', SetMean X s = Returns tt s' ∧
         m_MeanTolerance s' = m_MeanTolerance s ∧
         m_VarTolerance s' = m_VarTolerance s ∧
         m_MeanPercentError s' = m_MeanPercentError s ∧
         m_VarPercentError s' = m_VarPercentError s ∧
         m_WorkingImage s' = m_WorkingImage s) ∧
  (∃ s', SetVar X s = Returns tt s' ∧
         m_MeanTolerance s' = m_MeanTolerance s ∧
         m_VarTolerance s' = m_VarTolerance s ∧
         m_MeanPercentError s' = m_MeanPercentError s ∧
         m_VarPercentError s' = m_VarPercentError s ∧
         m_WorkingImage s' = m_WorkingImage s) ∧
  (∃ s', SetMaxValueOfRGB v s = Returns tt s' ∧
         m_MeanTolerance s' = m_MeanTolerance s ∧
         m_VarTolerance s' = m_VarTolerance s ∧
         m_MeanPercentError s' = m_MeanPercentError s ∧
         m_VarPercentError s' = m_VarPercentError s ∧
         m_WorkingImage s' = m_WorkingImage s).
Proof.
  split; [|split].
  - eexists. split; [apply SetMean_returns|]. simpl. repeat split.
  - eexists. split; [apply SetVar_returns|]. simpl. repeat split.
  - rewrite SetMaxValueOfRGB_unfold.
    destruct (Qeq_bool (m_MaxValueOfRGB s) v);
      (eexists; split; [reflexivity|]); simpl; repeat split.
Qed.

Lemma SetTestMean_returns (t1 t2 t3 : N) (s : Filter) :
  SetTestMean t1 t2 t3 s =
  Returns tt (with_TestMean
                (<[2%nat := t3]> (<[1%nat := t2]> (<[0%nat := t1]> (m_TestMean s)))) s).
Proof. reflexivity. Qed.

Lemma SetTestVar_returns (t1 t2 t3 : N) (s : Filter) :
  SetTestVar t1 t2 t3 s =
  Returns tt (with_TestVar
                (<[2%nat := t3]> (<[1%nat := t2]> (<[0%nat := t1]> (m_TestVar s)))) s).
Proof. reflexivity. Qed.

Lemma store3 {A : Type} (t1 t2 t3 : A) (l : list A) :
  length l = 3%nat →
  <[2%nat := t3]> (<[1%nat := t2]> (<[0%nat := t1]> l)) = [t1; t2; t3].
Proof.
  intros Hlen.
  do 3 (destruct l as [|? l]; [discriminate Hlen|]).
  destruct l; [reflexivity | discriminate Hlen].
Qed.

(** C3, as stated, fails: channel indices 6, 7, 8 and the maximum value -1
    are stored and both calls return. *)
Lemma setters_take_invalid_values :
  (m_TestMean <$> state_after (SetTestMean 6 7 8 scenario)) = Some [6%N; 7%N; 8%N] ∧
  (m_TestVar <$> state_after (SetTestVar 0 1 9 scenario)) = Some [0%N; 1%N; 9%N] ∧
  (m_MaxValueOfRGB <$> state_after (SetMaxValueOfRGB (-1) scenario)) = Some (-1).
Proof. repeat split. Qed.

Lemma masked_pixels_none (workingImage : gmap Index RGBHCVPixel)
    (priorMask : gmap Index bool) :
  (∀ idx, priorMask !! idx ≠ Some true) →
  masked_pixels workingImage priorMask = [].
Proof.
  intros Hnone. unfold masked_pixels.
  replace (filter (λ kv, priorMask !! kv.1 = Some true) workingImage)
    with (∅ : gmap Index RGBHCVPixel).
  - rewrite map_to_list_empty. reflexivity.
  - symmetry. apply map_empty_filter.
    intros idx px _ Hsel. exact (Hnone idx Hsel).
Qed.

(** C3, amended.  A prior mask that selects no pixel of the working image
    is rejected by [TakeAPrior] at the call.  [SetMaxValueOfRGB] rejects nothing: it returns
    with the value stored, and a value that is not positive is rejected only
    by the next [SetInput].  [SetTestMean] and [SetTestVar] reject nothing:
    they return with the three indices stored, whatever they are. *)
Theorem where_configuration_errors_surface
    (sqrt : Q → Q) (chromatic_hue : Q → Q → Q → Q → Q) (s : Filter) :
  well_sized s →
  (∀ aprior, masked_pixels (m_WorkingImage s) aprior = [] →
             TakeAPrior sqrt aprior s = Throws ConfigurationError) ∧
  (∀ v, ∃ s', SetMaxValueOfRGB v s = Returns tt s' ∧
              m_MaxValueOfRGB s' == v ∧
              (v <= 0 → ∀ input,
                 SetInput chromatic_hue input s' = Throws ConfigurationError)) ∧
  (∀ t1 t2 t3, ∃ s', SetTestMean t1 t2 t3 s = Returns tt s' ∧
                     m_TestMean s' = [t1; t2; t3]) ∧
  (∀ t1 t2 t3, ∃ s', SetTestVar t1 t2 t3 s = Returns tt s' ∧
                     m_TestVar s' = [t1; t2; t3]).
Proof.
  intros (_ & _ & _ & _ & _ & _ & HTM & HTV). repeat split.
  - intros aprior Hnone.
    unfold TakeAPrior, mbind, method_bind, read, Estimate.
    rewrite Hnone. reflexivity.
  - intros v.
    assert (Hin : ∀ s', m_MaxValueOfRGB s' == v → v <= 0 → ∀ input,
               SetInput chromatic_hue input s' = Throws ConfigurationError).
    { intros s' Hv Hle input. unfold SetInput, mbind, method_bind, read.
      replace (Qle_bool (m_MaxValueOfRGB s') 0) with true; [reflexivity|].
      symmetry. apply Qle_bool_iff. rewrite Hv. exact Hle. }
    rewrite SetMaxValueOfRGB_unfold.
    destruct (Qeq_bool (m_MaxValueOfRGB s) v) eqn:B.
    + exists s. apply Qeq_bool_iff in B. split; [reflexivity|].
      split; [exact B|]. apply Hin, B.
    + eexists. split; [reflexivity|]. simpl. split; [reflexivity|].
      apply Hin. simpl. reflexivity.
  - intros t1 t2 t3. eexists. split; [apply SetTestMean_returns|].
    simpl. apply store3, HTM.
  - intros t1 t2 t3. eexists. split; [apply SetTestVar_returns|].
    simpl. apply store3, HTV.
Qed.

Lemma scenario_well_sized : well_sized scenario.
Proof. unfold well_sized. simpl. repeat split; reflexivity. Qed.

Lemma where_configuration_errors_surface_witness :
  TakeAPrior Qsqrt_floor ∅ scenario = Throws ConfigurationError ∧
  ∃ s', SetTestMean 6 7 8 scenario = Returns tt s' ∧ m_TestMean s' = [6%N; 7%N; 8%N].
Proof.
  destruct (where_configuration_errors_surface Qsqrt_floor (λ _ _ _ _, 0)
              scenario scenario_well_sized) as (HT & _ & HM & _).
  split.
  - apply HT, masked_pixels_none.
    intros idx. rewrite lookup_empty. discriminate.
  - apply HM.
Defined.

(** ** The oracle *)

Section Oracle.

Variable sqrt : Q → Q.

(** The call never throws and never changes the object. *)
Lemma TestHomogeneity_pure (Plist : list Index) (s : Filter) :
  ∃ verdict, TestHomogeneity sqrt Plist s = Returns verdict s.
Proof. eexists. reflexivity. Qed.

Lemma existsb_false {A : Type} (f : A → bool) (l : list A) :
  existsb f l = false ↔ ∀ x, x ∈ l → f x = false.
Proof.
  induction l as [|a l IH]; simpl.
  - split; [|reflexivity]. intros _ x Hx. inversion Hx.
  - rewrite orb_false_iff, IH. split.
    + intros [Ha Hl] x Hx. inversion Hx; subst; auto.
    + intros Hall. split; [apply Hall; left|].
      intros x Hx. apply Hall. right. exact Hx.
Qed.

(** The verdict on a region with at least one pixel. *)
Lemma TestHomogeneity_true_iff (Plist : list Index) (s : Filter) :
  Plist ≠ [] →
  TestHomogeneity sqrt Plist s = Returns true s ↔
  (∀ c, c ∈ m_TestMean s → mean_exceeds s Plist c = false) ∧
  (∀ c, c ∈ m_TestVar s → std_exceeds sqrt s Plist c = false).
Proof.
  intros Hne. unfold TestHomogeneity, read.
  destruct Plist as [|idx Plist]; [congruence|].
  rewrite <- !existsb_false.
  destruct (existsb (mean_exceeds s (idx :: Plist)) (m_TestMean s));
    destruct (existsb (std_exceeds sqrt s (idx :: Plist)) (m_TestVar s));
    split; intros E; try reflexivity; try discriminate E;
    try (split; reflexivity); destruct E as [E1 E2]; discriminate.
Qed.

(** C7.  In every configuration [TestHomogeneity] on the empty index list
    returns false: it does not throw and it leaves the object as it is. *)
Theorem TestHomogeneity_empty_region (s : Filter) :
  TestHomogeneity sqrt [] s = Returns false s.
Proof. reflexivity. Qed.


(** An exceedance on one selected channel is enough to reject. *)
Lemma TestHomogeneity_rejects_on_exceedance (Plist : list Index) (s : Filter) (c : N) :
  (c ∈ m_TestMean s ∧
   m_MeanTolerance s !!! N.to_nat c
   < Qabs (region_mean s Plist c - m_Mean s !!! N.to_nat c)) ∨
  (c ∈ m_TestVar s ∧
   m_VarTolerance s !!! N.to_nat c
   < Qabs (region_std sqrt s Plist c - m_Var s !!! N.to_nat c)) →
  TestHomogeneity sqrt Plist s = Returns false s.
Proof.
  intros Hex. destruct Plist as [|idx Plist]; [reflexivity|].
  destruct (TestHomogeneity_pure (idx :: Plist) s) as [[|] E]; [|exact E].
  exfalso. apply TestHomogeneity_true_iff in E; [|discriminate].
  destruct E as [HM HV].
  destruct Hex as [[Hc Hlt]|[Hc Hlt]].
  - apply HM in Hc. apply Qgt_bool_false in Hc. lra.
  - apply HV in Hc. apply Qgt_bool_false in Hc. lra.
Qed.

End Oracle.


(** The scenarios of section 8 of the specification. *)
Example scenario_exact_match :
  returned (TestHomogeneity Qsqrt_floor [(0, 0)%Z; (1, 0)%Z] scenario) = Some true.
Proof. vm_compute. reflexivity. Qed.

Example scenario_deviating_pixel :
  returned (TestHomogeneity Qsqrt_floor [(0, 0)%Z; (2, 0)%Z] scenario) = Some false.
Proof. vm_compute. reflexivity. Qed.

(** ** Color-space expansion *)

Lemma max3_bounds (R G B lo hi : Q) :
  lo <= R <= hi → lo <= G <= hi → lo <= B <= hi →
  lo <= Qmax R (Qmax G B) <= hi ∧ R <= Qmax R (Qmax G B).
Proof.
  intros HR HG HB.
  pose proof (Q.le_max_l R (Qmax G B)) as H1.
  assert (H2 : Qmax R (Qmax G B) <= hi).
  { apply Q.max_lub; [lra|]. apply Q.max_lub; lra. }
  repeat split; lra.
Qed.

Lemma min3_bounds (R G B lo hi : Q) :
  lo <= R <= hi → lo <= G <= hi → lo <= B <= hi →
  lo <= Qmin R (Qmin G B) <= hi ∧ Qmin R (Qmin G B) <= R.
Proof.
  intros HR HG HB.
  pose proof (Q.le_min_l R (Qmin G B)) as H1.
  assert (H2 : lo <= Qmin R (Qmin G B)).
  { apply Q.min_glb; [lra|]. apply Q.min_glb; lra. }
  repeat split; lra.
Qed.

Section Expansion.

Variable chromatic_hue : Q → Q → Q → Q → Q.

Lemma ExpandPixel_channels (maxValue R G B : Q) :
  ExpandPixel chromatic_hue maxValue (R, G, B) !!! 5%nat = Qmax R (Qmax G B) ∧
  ExpandPixel chromatic_hue maxValue (R, G, B) !!! 4%nat
  = Qmax R (Qmax G B) - Qmin R (Qmin G B) ∧
  length (ExpandPixel chromatic_hue maxValue (R, G, B)) = 6%nat.
Proof. repeat split. Qed.

(** On one pixel: an achromatic pixel has chroma 0 and hue 0. *)
Lemma ExpandPixel_achromatic (maxValue R G B : Q) :
  R == G → G == B →
  ExpandPixel chromatic_hue maxValue (R, G, B) !!! 4%nat == 0 ∧
  ExpandPixel chromatic_hue maxValue (R, G, B) !!! 3%nat = 0.
Proof.
  intros HRG HGB.
  assert (HC : Qmax R (Qmax G B) - Qmin R (Qmin G B) == 0).
  { destruct (max3_bounds R G B R R) as [? _]; [lra..|].
    destruct (min3_bounds R G B R R) as [? _]; [lra..|]. lra. }
  split; [exact HC|].
  unfold ExpandPixel. cbn [lookup_total list_lookup_total].
  apply Qeq_bool_iff in HC. rewrite HC. reflexivity.
Qed.

(** The value and chroma channels stay within [0, maxValue] when R, G and
    B do.  (The hue of a chromatic pixel is a parameter of this model.) *)
Lemma ExpandPixel_value_chroma_range (maxValue R G B : Q) :
  0 <= R <= maxValue → 0 <= G <= maxValue → 0 <= B <= maxValue →
  0 <= ExpandPixel chromatic_hue maxValue (R, G, B) !!! 5%nat <= maxValue ∧
  0 <= ExpandPixel chromatic_hue maxValue (R, G, B) !!! 4%nat <= maxValue.
Proof.
  intros HR HG HB.
  destruct (ExpandPixel_channels maxValue R G B) as (-> & -> & _).
  destruct (max3_bounds R G B 0 maxValue) as [? ?]; [assumption..|].
  destruct (min3_bounds R G B 0 maxValue) as [? ?]; [assumption..|].
  repeat split; lra.
Qed.

(** C5.  With a valid maximum value, [SetInput] gives every input pixel
    with R = G = B a feature vector of six channels, R, G, B first, whose
    hue channel (index 3) is 0 and whose chroma channel (index 4) is 0. *)
Theorem achromatic_pixels_have_no_chroma_and_no_hue
    (input : gmap Index RGBPixel) (s : Filter) (idx : Index) (R G B : Q) :
  0 < m_MaxValueOfRGB s →
  input !! idx = Some (R, G, B) →
  R == G → G == B →
  ∃ s' w, SetInput chromatic_hue input s = Returns tt s' ∧
          m_WorkingImage s' !! idx = Some w ∧
          length w = 6%nat ∧
          w !! 0%nat = Some R ∧ w !! 1%nat = Some G ∧ w !! 2%nat = Some B ∧
          w !! 3%nat = Some 0 ∧
          (∃ C, w !! 4%nat = Some C ∧ C == 0) ∧
          w !!! 4%nat == 0 ∧ w !!! 3%nat = 0.
Proof.
  intros Hmax Hpx HRG HGB.
  exists (with_WorkingImage (Expand chromatic_hue input (m_MaxValueOfRGB s)) s),
         (ExpandPixel chromatic_hue (m_MaxValueOfRGB s) (R, G, B)).
  destruct (ExpandPixel_achromatic (m_MaxValueOfRGB s) R G B HRG HGB)
    as [HC HH].
  split; [|split].
  - unfold SetInput, mbind, method_bind, read.
    destruct (Qle_bool (m_MaxValueOfRGB s) 0) eqn:E; [|reflexivity].
    apply Qle_bool_iff in E. lra.
  - simpl. unfold Expand. rewrite lookup_fmap, Hpx. reflexivity.
  - split; [reflexivity|]. split; [reflexivity|]. split; [reflexivity|].
    split; [reflexivity|]. split; [|split; [|split; assumption]].
    + change (Some (ExpandPixel chromatic_hue (m_MaxValueOfRGB s) (R, G, B)
                    !!! 3%nat) = Some 0).
      rewrite HH. reflexivity.
    + eexists. split; [reflexivity|]. exact HC.
Qed.

End Expansion.

Lemma achromatic_pixels_have_no_chroma_and_no_hue_witness :
  ∃ s' w, SetInput (λ _ _ _ _, 1) {[ (0, 0)%Z := (100, 100, 100) ]} scenario
          = Returns tt s' ∧
          m_WorkingImage s' !! (0, 0)%Z = Some w ∧
          length w = 6%nat ∧
          w !! 3%nat = Some 0 ∧
          (∃ C, w !! 4%nat = Some C ∧ C == 0).
Proof.
  destruct (achromatic_pixels_have_no_chroma_and_no_hue (λ _ _ _ _, 1)
              {[ (0, 0)%Z := (100, 100, 100) ]} scenario (0, 0)%Z 100 100 100)
    as (s' & w & E & Hw & Hlen & _ & _ & _ & HH & HC & _).
  - reflexivity.
  - reflexivity.
  - reflexivity.
  - reflexivity.
  - exists s', w. repeat split; assumption.
Defined.

(** ** The tolerance calculation *)

Lemma lookup_total_beyond (l : list Q) (n : nat) :
  (length l ≤ n)%nat → l !!! n = 0.
Proof.
  intros Hlen. rewrite list_lookup_total_alt.
  rewrite (lookup_ge_None_2 l n Hlen). reflexivity.
Qed.

Lemma within_policy_clamp (x : list Q) : within_policy ClampToNonNegative x.
Proof. intros i _. eexists. reflexivity. Qed.

Lemma within_policy_reject (x : list Q) :
  within_policy RejectOutOfRange x ↔ ∀ i, (i < 6)%nat → 0 <= x !!! i <= 1.
Proof.
  unfold within_policy, apply_policy. split; intros Hx i Hi.
  - destruct (Hx i Hi) as [y Hy].
    destruct (Qle_bool 0 (x !!! i)) eqn:E0; [|discriminate Hy].
    destruct (Qle_bool (x !!! i) 1) eqn:E1; [|discriminate Hy].
    split; apply Qle_bool_iff; assumption.
  - destruct (Hx i Hi) as [H0 H1].
    apply Qle_bool_iff in H0, H1. rewrite H0, H1. eexists. reflexivity.
Qed.

(** What the policy lets through is not below what it was given. *)
Lemma apply_policy_ge (policy : OutOfRangePolicy) (v v' : Q) :
  apply_policy policy v = Some v' → v <= v'.
Proof.
  destruct policy; simpl.
  - destruct (Qle_bool 0 v && Qle_bool v 1); [|discriminate].
    intros [= <-]. lra.
  - intros [= <-]. apply Q.le_max_r.
Qed.

Lemma policy_result (policy : OutOfRangePolicy) (x : list Q) :
  within_policy policy x →
  ∃ x', mapM (apply_policy policy) (elements6 x) = Some x' ∧
        length x' = 6%nat ∧
        ∀ i, (i < 6)%nat → apply_policy policy (x !!! i) = Some (x' !!! i).
Proof.
  intros Hx.
  destruct (Hx 0%nat) as [y0 E0]; [lia|].
  destruct (Hx 1%nat) as [y1 E1]; [lia|].
  destruct (Hx 2%nat) as [y2 E2]; [lia|].
  destruct (Hx 3%nat) as [y3 E3]; [lia|].
  destruct (Hx 4%nat) as [y4 E4]; [lia|].
  destruct (Hx 5%nat) as [y5 E5]; [lia|].
  exists [y0; y1; y2; y3; y4; y5]. split; [|split].
  - unfold elements6. cbn [fmap list_fmap seq mapM].
    rewrite E0, E1, E2, E3, E4, E5. reflexivity.
  - reflexivity.
  - intros i Hi.
    do 6 (destruct i as [|i]; [assumption|]). lia.
Qed.

Lemma policy_result_inv (policy : OutOfRangePolicy) (x x' : list Q) :
  mapM (apply_policy policy) (elements6 x) = Some x' → within_policy policy x.
Proof.
  intros E i Hi.
  apply mapM_Some in E. unfold elements6 in E. cbn [fmap list_fmap seq] in E.
  repeat match goal with
         | H : Forall2 _ (_ :: _) _ |- _ =>
             apply Forall2_cons_inv_l in H as (? & ? & ? & H & ->)
         end.
  do 6 (destruct i as [|i]; [eexists; eassumption|]). lia.
Qed.

Lemma policy_refusal (policy : OutOfRangePolicy) (x : list Q) :
  ¬ within_policy policy x →
  mapM (apply_policy policy) (elements6 x) = None.
Proof.
  intros Hx.
  destruct (mapM (apply_policy policy) (elements6 x)) as [x'|] eqn:E;
    [|reflexivity].
  exfalso. exact (Hx (policy_result_inv policy x x' E)).
Qed.

Lemma ComputeTolerances_lookup (s : Filter) (i : nat) :
  tolerances_computed s → (i < 6)%nat →
  m_MeanTolerance s !!! i = m_Mean s !!! i * m_MeanPercentError s !!! i ∧
  m_VarTolerance s !!! i = m_Var s !!! i * m_VarPercentError s !!! i.
Proof.
  unfold tolerances_computed, ComputeTolerances. intros [= -> ->] Hi.
  do 6 (destruct i as [|i]; [split; reflexivity|]). lia.
Qed.

Lemma ComputeTolerances_sizes (s : Filter) :
  tolerances_computed s →
  length (m_MeanTolerance s) = 6%nat ∧ length (m_VarTolerance s) = 6%nat.
Proof.
  unfold tolerances_computed, ComputeTolerances. intros [= -> ->]. split; reflexivity.
Qed.

(** [SetMeanPercentError] on values the policy lets through: it returns,
    stores them and leaves the tolerances computed. *)
Lemma SetMeanPercentError_returns (policy : OutOfRangePolicy) (x : list Q) (s : Filter) :
  well_sized s → within_policy policy x →
  ∃ s', SetMeanPercentError policy x s = Returns tt s' ∧
        well_sized s' ∧ same_targets s s' ∧ tolerances_computed s' ∧
        m_VarPercentError s' = m_VarPercentError s ∧
        ∀ i, (i < 6)%nat →
             apply_policy policy (x !!! i) = Some (m_MeanPercentError s' !!! i).
Proof.
  intros Hs Hx. destruct (policy_result policy x Hx) as (x' & E & Hlen & Hx').
  destruct Hs as (HM & HV & HMT & HVT & HMP & HVP & HTM & HTV).
  unfold SetMeanPercentError. rewrite E.
  unfold mbind, method_bind, modify, RecomputeTolerances. simpl.
  rewrite copy_array_exact by assumption.
  eexists. split; [reflexivity|]. simpl.
  split; [unfold well_sized; simpl; repeat split; assumption|].
  split; [unfold same_targets; simpl; repeat split|].
  split; [reflexivity|]. split; [reflexivity|]. exact Hx'.
Qed.

Lemma SetVarPercentError_returns (policy : OutOfRangePolicy) (x : list Q) (s : Filter) :
  well_sized s → within_policy policy x →
  ∃ s', SetVarPercentError policy x s = Returns tt s' ∧
        well_sized s' ∧ same_targets s s' ∧ tolerances_computed s' ∧
        m_MeanPercentError s' = m_MeanPercentError s ∧
        ∀ i, (i < 6)%nat →
             apply_policy policy (x !!! i) = Some (m_VarPercentError s' !!! i).
Proof.
  intros Hs Hx. destruct (policy_result policy x Hx) as (x' & E & Hlen & Hx').
  destruct Hs as (HM & HV & HMT & HVT & HMP & HVP & HTM & HTV).
  unfold SetVarPercentError. rewrite E.
  unfold mbind, method_bind, modify, RecomputeTolerances. simpl.
  rewrite copy_array_exact by assumption.
  eexists. split; [reflexivity|]. simpl.
  split; [unfold well_sized; simpl; repeat split; assumption|].
  split; [unfold same_targets; simpl; repeat split|].
  split; [reflexivity|]. split; [reflexivity|]. exact Hx'.
Qed.

(** Values the policy refuses: the call throws. *)
Lemma SetMeanPercentError_throws (policy : OutOfRangePolicy) (x : list Q) (s : Filter) :
  ¬ within_policy policy x →
  SetMeanPercentError policy x s = Throws ConfigurationError.
Proof.
  intros Hx. unfold SetMeanPercentError.
  rewrite (policy_refusal policy x Hx). reflexivity.
Qed.

Lemma SetVarPercentError_throws (policy : OutOfRangePolicy) (x : list Q) (s : Filter) :
  ¬ within_policy policy x →
  SetVarPercentError policy x s = Throws ConfigurationError.
Proof.
  intros Hx. unfold SetVarPercentError.
  rewrite (policy_refusal policy x Hx). reflexivity.
Qed.

Lemma SetMeanPercentError_returned (policy : OutOfRangePolicy) (x : list Q) (s s' : Filter) :
  SetMeanPercentError policy x s = Returns tt s' → within_policy policy x.
Proof.
  unfold SetMeanPercentError.
  destruct (mapM (apply_policy policy) (elements6 x)) as [x'|] eqn:E.
  - intros _. exact (policy_result_inv policy x x' E).
  - discriminate.
Qed.

Lemma SetVarPercentError_returned (policy : OutOfRangePolicy) (x : list Q) (s s' : Filter) :
  SetVarPercentError policy x s = Returns tt s' → within_policy policy x.
Proof.
  unfold SetVarPercentError.
  destruct (mapM (apply_policy policy) (elements6 x)) as [x'|] eqn:E.
  - intros _. exact (policy_result_inv policy x x' E).
  - discriminate.
Qed.

(** C4.  For every channel i in [0,5], the tolerance calculation run inside
    [SetMeanPercentError] and [SetVarPercentError] leaves
    [MeanTolerance[i] = Mean[i] * MeanPercentError[i]] and
    [VarTolerance[i] = Std[i] * VarPercentError[i]], on the stored target
    mean and standard deviation, which the call does not change.  The call
    completes whenever the policy lets the percent errors through, which
    the clamping policy always does. *)
Theorem tolerance_calculation_exact
    (policy : OutOfRangePolicy) (x : list Q) (s : Filter) :
  well_sized s →
  (∀ s', SetMeanPercentError policy x s = Returns tt s' ∨
         SetVarPercentError policy x s = Returns tt s' →
         m_Mean s' = m_Mean s ∧ m_Var s' = m_Var s ∧
         ∀ i, (i < 6)%nat →
           m_MeanTolerance s' !!! i = m_Mean s' !!! i * m_MeanPercentError s' !!! i ∧
           m_VarTolerance s' !!! i = m_Var s' !!! i * m_VarPercentError s' !!! i) ∧
  (within_policy policy x →
   (∃ s', SetMeanPercentError policy x s = Returns tt s') ∧
   (∃ s', SetVarPercentError policy x s = Returns tt s')) ∧
  within_policy ClampToNonNegative x.
Proof.
  intros Hs. split; [|split].
  - intros s' [E|E].
    + pose proof (SetMeanPercentError_returned policy x s s' E) as Hx.
      destruct (SetMeanPercentError_returns policy x s Hs Hx)
        as (s1 & E1 & _ & (HM & HV & _) & HC & _).
      rewrite E in E1. injection E1 as <-.
      repeat split; try assumption; apply ComputeTolerances_lookup; assumption.
    + pose proof (SetVarPercentError_returned policy x s s' E) as Hx.
      destruct (SetVarPercentError_returns policy x s Hs Hx)
        as (s1 & E1 & _ & (HM & HV & _) & HC & _).
      rewrite E in E1. injection E1 as <-.
      repeat split; try assumption; apply ComputeTolerances_lookup; assumption.
  - intros Hx. split.
    + destruct (SetMeanPercentError_returns policy x s Hs Hx) as (s' & E & _).
      exists s'. exact E.
    + destruct (SetVarPercentError_returns policy x s Hs Hx) as (s' & E & _).
      exists s'. exact E.
  - apply within_policy_clamp.
Qed.

Lemma tolerance_calculation_exact_witness :
  ∃ s', SetMeanPercentError ClampToNonNegative
          [2#10; 2#10; 2#10; 2#10; 2#10; 2#10] scenario = Returns tt s' ∧
        m_MeanTolerance s' !!! 0%nat
        = m_Mean s' !!! 0%nat * m_MeanPercentError s' !!! 0%nat.
Proof.
  destruct (tolerance_calculation_exact ClampToNonNegative
              [2#10; 2#10; 2#10; 2#10; 2#10; 2#10] scenario scenario_well_sized)
    as (Heq & Hret & Hclamp).
  destruct (Hret Hclamp) as [[s' E] _].
  exists s'. split; [exact E|].
  apply (Heq s' (or_introl E)). lia.
Defined.

(** ** Widening the percent errors (C8) *)

Section Widening.

Variable sqrt : Q → Q.

(** With the same targets, channel selections and working image, and
    tolerances that are not smaller on the selected channels, an accepted
    region stays accepted. *)
Lemma acceptance_transfers (s s' : Filter) (Plist : list Index) :
  same_targets s s' →
  (∀ c, c ∈ m_TestMean s →
     m_MeanTolerance s !!! N.to_nat c <= m_MeanTolerance s' !!! N.to_nat c) →
  (∀ c, c ∈ m_TestVar s →
     m_VarTolerance s !!! N.to_nat c <= m_VarTolerance s' !!! N.to_nat c) →
  TestHomogeneity sqrt Plist s = Returns true s →
  TestHomogeneity sqrt Plist s' = Returns true s'.
Proof.
  intros (HM & HV & HTM & HTV & HW & _) HMT HVT Hacc.
  destruct Plist as [|idx Plist]; [discriminate Hacc|].
  apply TestHomogeneity_true_iff in Hacc; [|discriminate].
  apply TestHomogeneity_true_iff; [discriminate|].
  destruct Hacc as [HaM HaV]. rewrite HTM, HTV.
  unfold mean_exceeds, std_exceeds, region_mean, region_std in *.
  rewrite HM, HV, HW.
  split; intros c Hc; apply Qgt_bool_false.
  - specialize (HaM c Hc). apply Qgt_bool_false in HaM.
    specialize (HMT c Hc). lra.
  - specialize (HaV c Hc). apply Qgt_bool_false in HaV.
    specialize (HVT c Hc). lra.
Qed.

(** One run of the tolerance calculation with percent errors that are not
    smaller: the selected channels stay sound and an accepted region
    stays accepted. *)
Lemma widening_step (s s' : Filter) (Plist : list Index) :
  well_sized s → well_sized s' → selected_channels_sound s →
  same_targets s s' → tolerances_computed s' →
  (∀ i, (i < 6)%nat → m_MeanPercentError s !!! i <= m_MeanPercentError s' !!! i) →
  (∀ i, (i < 6)%nat → m_VarPercentError s !!! i <= m_VarPercentError s' !!! i) →
  selected_channels_sound s' ∧
  (TestHomogeneity sqrt Plist s = Returns true s →
   TestHomogeneity sqrt Plist s' = Returns true s').
Proof.
  intros Hs Hs' [HsM HsV] Hsame HC HMP HVP.
  pose proof Hsame as (HM & HV & HTM & HTV & _).
  destruct Hs as (LM & LV & LMT & LVT & LMP & LVP & _).
  destruct (ComputeTolerances_sizes s' HC) as [LMT' LVT'].
  assert (KM : ∀ c, c ∈ m_TestMean s →
            0 <= m_Mean s !!! N.to_nat c ∧
            m_MeanTolerance s' !!! N.to_nat c
            == m_Mean s !!! N.to_nat c * m_MeanPercentError s' !!! N.to_nat c ∧
            m_MeanTolerance s !!! N.to_nat c <= m_MeanTolerance s' !!! N.to_nat c).
  { intros c Hc. destruct (HsM c Hc) as [Hpos Hcons].
    destruct (Nat.lt_ge_cases (N.to_nat c) 6) as [Hlt|Hge].
    - destruct (ComputeTolerances_lookup s' (N.to_nat c) HC Hlt) as [-> _].
      rewrite HM. specialize (HMP _ Hlt).
      split; [exact Hpos|]. split; [reflexivity|]. rewrite Hcons. nra.
    - rewrite (lookup_total_beyond (m_MeanTolerance s')) by lia.
      rewrite (lookup_total_beyond (m_MeanTolerance s)) by lia.
      rewrite (lookup_total_beyond (m_Mean s)) by lia.
      split; [lra|]. split; lra. }
  assert (KV : ∀ c, c ∈ m_TestVar s →
            0 <= m_Var s !!! N.to_nat c ∧
            m_VarTolerance s' !!! N.to_nat c
            == m_Var s !!! N.to_nat c * m_VarPercentError s' !!! N.to_nat c ∧
            m_VarTolerance s !!! N.to_nat c <= m_VarTolerance s' !!! N.to_nat c).
  { intros c Hc. destruct (HsV c Hc) as [Hpos Hcons].
    destruct (Nat.lt_ge_cases (N.to_nat c) 6) as [Hlt|Hge].
    - destruct (ComputeTolerances_lookup s' (N.to_nat c) HC Hlt) as [_ ->].
      rewrite HV. specialize (HVP _ Hlt).
      split; [exact Hpos|]. split; [reflexivity|]. rewrite Hcons. nra.
    - rewrite (lookup_total_beyond (m_VarTolerance s')) by lia.
      rewrite (lookup_total_beyond (m_VarTolerance s)) by lia.
      rewrite (lookup_total_beyond (m_Var s)) by lia.
      split; [lra|]. split; lra. }
  split.
  - unfold selected_channels_sound. rewrite HTM, HTV, HM, HV.
    split; intros c Hc.
    + destruct (KM c Hc) as (? & ? & _). split; assumption.
    + destruct (KV c Hc) as (? & ? & _). split; assumption.
  - apply acceptance_transfers; [exact Hsame| |].
    + intros c Hc. apply (KM c Hc).
    + intros c Hc. apply (KV c Hc).
Qed.

(** C8, amended.  In a configuration whose selected channels have
    non-negative targets and tolerances equal to target times percent
    error, a region that [TestHomogeneity] accepts is still accepted after
    [SetMeanPercentError], after [SetVarPercentError], and after both, with
    percent errors that are channel-wise not smaller than the stored ones
    and that the policy lets through. *)
Theorem widening_keeps_acceptance
    (policy : OutOfRangePolicy) (s : Filter) (Plist : list Index)
    (mpe vpe : list Q) :
  well_sized s → selected_channels_sound s →
  within_policy policy mpe → within_policy policy vpe →
  (∀ i, (i < 6)%nat → m_MeanPercentError s !!! i <= mpe !!! i) →
  (∀ i, (i < 6)%nat → m_VarPercentError s !!! i <= vpe !!! i) →
  TestHomogeneity sqrt Plist s = Returns true s →
  (∃ s', SetMeanPercentError policy mpe s = Returns tt s' ∧
         TestHomogeneity sqrt Plist s' = Returns true s') ∧
  (∃ s', SetVarPercentError policy vpe s = Returns tt s' ∧
         TestHomogeneity sqrt Plist s' = Returns true s') ∧
  (∃ s', (SetMeanPercentError policy mpe ;; SetVarPercentError policy vpe) s
         = Returns tt s' ∧
         TestHomogeneity sqrt Plist s' = Returns true s').
Proof.
  intros Hs Hsound Hmpe Hvpe HM HV Hacc.
  destruct (SetMeanPercentError_returns policy mpe s Hs Hmpe)
    as (s1 & E1 & Hs1 & Hsame1 & HC1 & HVP1 & Hx1).
  assert (Hstep1 : selected_channels_sound s1 ∧
            (TestHomogeneity sqrt Plist s = Returns true s →
             TestHomogeneity sqrt Plist s1 = Returns true s1)).
  { apply widening_step; try assumption.
    - intros i Hi. specialize (HM i Hi).
      pose proof (apply_policy_ge _ _ _ (Hx1 i Hi)). lra.
    - intros i Hi. rewrite HVP1. lra. }
  destruct Hstep1 as [Hsound1 Hacc1].
  split; [|split].
  - exists s1. split; [exact E1|]. apply Hacc1, Hacc.
  - destruct (SetVarPercentError_returns policy vpe s Hs Hvpe)
      as (s2 & E2 & Hs2 & Hsame2 & HC2 & HMP2 & Hx2).
    exists s2. split; [exact E2|].
    refine (proj2 (widening_step s s2 Plist Hs Hs2 Hsound Hsame2 HC2 _ _) Hacc).
    + intros i Hi. rewrite HMP2. lra.
    + intros i Hi. specialize (HV i Hi).
      pose proof (apply_policy_ge _ _ _ (Hx2 i Hi)). lra.
  - destruct (SetVarPercentError_returns policy vpe s1 Hs1 Hvpe)
      as (s2 & E2 & Hs2 & Hsame2 & HC2 & HMP2 & Hx2).
    exists s2. split.
    + unfold mbind, method_bind. rewrite E1. exact E2.
    + refine (proj2 (widening_step s1 s2 Plist Hs1 Hs2 Hsound1 Hsame2 HC2 _ _)
                (Hacc1 Hacc)).
      * intros i Hi. rewrite HMP2. lra.
      * intros i Hi. rewrite HVP1. specialize (HV i Hi).
        pose proof (apply_policy_ge _ _ _ (Hx2 i Hi)). lra.
Qed.

End Widening.

Lemma scenario_selected_channels_sound : selected_channels_sound scenario.
Proof.
  split; intros c Hc; simpl in Hc;
    repeat (apply elem_of_cons in Hc as [->|Hc]);
    try (inversion Hc; fail);
    (split; [discriminate | reflexivity]).
Qed.

Lemma widening_keeps_acceptance_witness :
  ∃ s', (SetMeanPercentError ClampToNonNegative [2#10; 2#10; 2#10; 2#10; 2#10; 2#10] ;;
         SetVarPercentError ClampToNonNegative [3#10; 3#10; 3#10; 3#10; 3#10; 3#10])
          scenario = Returns tt s' ∧
        TestHomogeneity Qsqrt_floor [(0, 0)%Z; (1, 0)%Z] s' = Returns true s'.
Proof.
  apply (widening_keeps_acceptance Qsqrt_floor ClampToNonNegative scenario
           [(0, 0)%Z; (1, 0)%Z]
           [2#10; 2#10; 2#10; 2#10; 2#10; 2#10]
           [3#10; 3#10; 3#10; 3#10; 3#10; 3#10]).
  - exact scenario_well_sized.
  - exact scenario_selected_channels_sound.
  - apply within_policy_clamp.
  - apply within_policy_clamp.
  - intros i Hi. do 6 (destruct i as [|i]; [discriminate|]). lia.
  - intros i Hi. do 6 (destruct i as [|i]; [discriminate|]). lia.
  - vm_compute. reflexivity.
Defined.

(** The stale configuration is what the three calls leave behind. *)
Lemma stale_configuration_reached :
  state_after
    ((SetMean [250; 250; 250; 0; 0; 250] ;;
      SetMeanPercentError ClampToNonNegative [1#10; 1#10; 1#10; 1#10; 1#10; 1#10] ;;
      SetMean [100; 100; 100; 0; 0; 100]) scenario)
  = Some stale_configuration.
Proof. reflexivity. Qed.

(** C8, as stated, fails.  In the stale configuration the one-pixel region
    (120,120,120) is accepted: its mean is 20 away from the target 100 and
    the stored tolerance is 25.  Raising every mean percent error from 0.1
    to 0.15 recomputes the tolerance as 15 and the region is rejected, under
    either policy. *)
Lemma widening_rejects_in_stale_configuration :
  TestHomogeneity Qsqrt_floor [(2, 0)%Z] stale_configuration
  = Returns true stale_configuration ∧
  Forall2 Qle (m_MeanPercentError stale_configuration)
    [15#100; 15#100; 15#100; 15#100; 15#100; 15#100] ∧
  returned
    ((SetMeanPercentError ClampToNonNegative
        [15#100; 15#100; 15#100; 15#100; 15#100; 15#100] ;;
      TestHomogeneity Qsqrt_floor [(2, 0)%Z]) stale_configuration) = Some false ∧
  returned
    ((SetMeanPercentError RejectOutOfRange
        [15#100; 15#100; 15#100; 15#100; 15#100; 15#100] ;;
      TestHomogeneity Qsqrt_floor [(2, 0)%Z]) stale_configuration) = Some false.
Proof.
  split; [vm_compute; reflexivity|].
  split; [repeat constructor; discriminate|].
  split; vm_compute; reflexivity.
Qed.

(** The non-negative targets of the amended statement are needed as well:
    with target hue -1 matched exactly at percent error 0, raising the
    percent error to 0.5 makes the tolerance -0.5 and the region is
    rejected. *)
Example widening_rejects_with_negative_target :
  tolerances_consistent negative_target_configuration = true ∧
  TestHomogeneity Qsqrt_floor [(0, 0)%Z] negative_target_configuration
  = Returns true negative_target_configuration ∧
  returned
    ((SetMeanPercentError ClampToNonNegative
        [1#2; 1#2; 1#2; 1#2; 1#2; 1#2] ;;
      TestHomogeneity Qsqrt_floor [(0, 0)%Z]) negative_target_configuration)
  = Some false.
Proof. repeat split; vm_compute; reflexivity. Qed.

(** Section 8 of the specification: a prior that selects exactly one pixel,
    of value (50,60,70), gives a standard deviation of 0 on every channel. *)
Example single_pixel_prior_has_no_deviation :
  snd <$> Estimate Qsqrt_floor
            (Expand (λ _ _ _ _, 0) {[ (0, 0)%Z := (50, 60, 70) ]} 255)
            {[ (0, 0)%Z := true ]}
  = Some [0; 0; 0; 0; 0; 0].
Proof. vm_compute. reflexivity. Qed.

(** * More on the methods of the header *)

Lemma copy_array_prefix {A : Type} `{Inhabited A} (src dst : list A) :
  (6 ≤ length src)%nat → (6 ≤ length dst)%nat →
  copy_array 6 src dst = take 6 src ++ drop 6 dst.
Proof.
  intros Hsrc Hdst.
  do 6 (destruct src as [|? src]; [simpl in Hsrc; lia|]).
  do 6 (destruct dst as [|? dst]; [simpl in Hdst; lia|]).
  reflexivity.
Qed.

Lemma store3_prefix {A : Type} (t1 t2 t3 : A) (l : list A) :
  (3 ≤ length l)%nat →
  <[2%nat := t3]> (<[1%nat := t2]> (<[0%nat := t1]> l)) = [t1; t2; t3] ++ drop 3 l.
Proof.
  intros Hlen.
  do 3 (destruct l as [|? l]; [simpl in Hlen; lia|]).
  reflexivity.
Qed.

(** X1.  For channel selections of the declared size 3, [SetTestMean(t1,t2,t3)]
    followed by [GetTestMean(out)] fills [out] with exactly [t1, t2, t3]
    and the getter leaves the object as the setter left it; likewise for
    [SetTestVar] and [GetTestVar]. *)
Theorem SetTest_then_GetTest_round_trip (t1 t2 t3 : N) (out : list N) (s : Filter) :
  well_sized s → length out = 3%nat →
  (∃ s1, SetTestMean t1 t2 t3 s = Returns tt s1 ∧
         GetTestMean out s1 = Returns [t1; t2; t3] s1) ∧
  (∃ s2, SetTestVar t1 t2 t3 s = Returns tt s2 ∧
         GetTestVar out s2 = Returns [t1; t2; t3] s2).
Proof.
  intros (_ & _ & _ & _ & _ & _ & HTM & HTV) Hout. split.
  - exists (with_TestMean [t1; t2; t3] s). split.
    + rewrite SetTestMean_returns, (store3 t1 t2 t3 _ HTM). reflexivity.
    + unfold GetTestMean, read. cbn [m_TestMean with_TestMean].
      change ([t1; t2; t3] !!! 0%nat) with t1.
      change ([t1; t2; t3] !!! 1%nat) with t2.
      change ([t1; t2; t3] !!! 2%nat) with t3.
      rewrite (store3 t1 t2 t3 out Hout). reflexivity.
  - exists (with_TestVar [t1; t2; t3] s). split.
    + rewrite SetTestVar_returns, (store3 t1 t2 t3 _ HTV). reflexivity.
    + unfold GetTestVar, read. cbn [m_TestVar with_TestVar].
      change ([t1; t2; t3] !!! 0%nat) with t1.
      change ([t1; t2; t3] !!! 1%nat) with t2.
      change ([t1; t2; t3] !!! 2%nat) with t3.
      rewrite (store3 t1 t2 t3 out Hout). reflexivity.
Qed.

Lemma SetTest_then_GetTest_round_trip_witness :
  ∃ s1, SetTestMean 3 4 5 scenario = Returns tt s1 ∧
        GetTestMean [0%N; 0%N; 0%N] s1 = Returns [3%N; 4%N; 5%N] s1.
Proof.
  destruct (SetTest_then_GetTest_round_trip 3 4 5 [0%N; 0%N; 0%N] scenario
              scenario_well_sized eq_refl) as [H _].
  exact H.
Defined.

(** X2.  [SetMean], [SetVar], [SetTestMean] and [SetTestVar] return and
    write one member each: every other member, the modification time
    among them, is as before the call.  Unlike [SetMaxValueOfRGB], they do
    not mark the object modified. *)
Theorem array_setters_write_one_member (x : list Q) (t1 t2 t3 : N) (s : Filter) :
  (∃ s', SetMean x s = Returns tt s' ∧ beside_Mean s' = beside_Mean s) ∧
  (∃ s', SetVar x s = Returns tt s' ∧ beside_Var s' = beside_Var s) ∧
  (∃ s', SetTestMean t1 t2 t3 s = Returns tt s' ∧
         beside_TestMean s' = beside_TestMean s) ∧
  (∃ s', SetTestVar t1 t2 t3 s = Returns tt s' ∧
         beside_TestVar s' = beside_TestVar s).
Proof.
  repeat split.
  - eexists. split; [apply SetMean_returns|reflexivity].
  - eexists. split; [apply SetVar_returns|reflexivity].
  - eexists. split; [apply SetTestMean_returns|reflexivity].
  - eexists. split; [apply SetTestVar_returns|reflexivity].
Qed.

(** X3.  A second call overwrites the first: [SetMean(X)] then [SetMean(Y)]
    leaves the object as [SetMean(Y)] alone does, whatever [X] was, and
    likewise for [SetVar], [SetTestMean] and [SetTestVar]. *)
Theorem array_setters_last_write_wins
    (X Y : list Q) (a1 a2 a3 b1 b2 b3 : N) (s : Filter) :
  well_sized s → length Y = 6%nat →
  (SetMean X ;; SetMean Y) s = SetMean Y s ∧
  (SetVar X ;; SetVar Y) s = SetVar Y s ∧
  (SetTestMean a1 a2 a3 ;; SetTestMean b1 b2 b3) s = SetTestMean b1 b2 b3 s ∧
  (SetTestVar a1 a2 a3 ;; SetTestVar b1 b2 b3) s = SetTestVar b1 b2 b3 s.
Proof.
  intros (HM & HV & _ & _ & _ & _ & HTM & HTV) HY.
  assert (Hcopy : ∀ m : list Q, length m = 6%nat →
            copy_array 6 Y (copy_array 6 X m) = copy_array 6 Y m).
  { intros m Hm. rewrite !(copy_array_exact Y); try assumption; [reflexivity|].
    rewrite copy_array_length. exact Hm. }
  assert (Hstore : ∀ l : list N, length l = 3%nat →
            <[2%nat := b3]> (<[1%nat := b2]> (<[0%nat := b1]>
              (<[2%nat := a3]> (<[1%nat := a2]> (<[0%nat := a1]> l)))))
            = <[2%nat := b3]> (<[1%nat := b2]> (<[0%nat := b1]> l))).
  { intros l Hl. rewrite (store3 a1 a2 a3 l Hl), (store3 b1 b2 b3 l Hl).
    reflexivity. }
  repeat split.
  - unfold mbind, method_bind. rewrite !SetMean_returns. simpl.
    rewrite (Hcopy _ HM). reflexivity.
  - unfold mbind, method_bind. rewrite !SetVar_returns. simpl.
    rewrite (Hcopy _ HV). reflexivity.
  - unfold mbind, method_bind. rewrite SetTestMean_returns.
    rewrite !SetTestMean_returns. simpl. rewrite (Hstore _ HTM). reflexivity.
  - unfold mbind, method_bind. rewrite SetTestVar_returns.
    rewrite !SetTestVar_returns. simpl. rewrite (Hstore _ HTV). reflexivity.
Qed.

Lemma array_setters_last_write_wins_witness :
  (SetMean [9; 9; 9; 9; 9; 9] ;; SetMean [1; 2; 3; 4; 5; 6]) scenario
  = SetMean [1; 2; 3; 4; 5; 6] scenario.
Proof.
  destruct (array_setters_last_write_wins [9; 9; 9; 9; 9; 9] [1; 2; 3; 4; 5; 6]
              0 0 0 0 0 0 scenario scenario_well_sized eq_refl) as [H _].
  exact H.
Defined.

(** X4.  Two setters of the header that write different members commute:
    called in either order on the same object they leave the same object. *)
Theorem header_setters_commute (c1 c2 : HeaderSetter) (s : Filter) :
  written_member c1 ≠ written_member c2 →
  (call_setter c1 ;; call_setter c2) s = (call_setter c2 ;; call_setter c1) s.
Proof.
  intros Hne. unfold mbind, method_bind.
  destruct c1, c2; simpl in Hne; try congruence; simpl;
    rewrite ?SetMaxValueOfRGB_unfold; simpl;
    try reflexivity;
    destruct (Qeq_bool (m_MaxValueOfRGB s) v); simpl;
    rewrite ?SetMaxValueOfRGB_unfold; simpl;
    try reflexivity;
    destruct (Qeq_bool (m_MaxValueOfRGB s) v); reflexivity.
Qed.

Lemma header_setters_commute_witness :
  (SetMean [1; 2; 3; 4; 5; 6] ;; SetMaxValueOfRGB 1023) scenario
  = (SetMaxValueOfRGB 1023 ;; SetMean [1; 2; 3; 4; 5; 6]) scenario.
Proof.
  apply (header_setters_commute (CallSetMean [1; 2; 3; 4; 5; 6])
           (CallSetMaxValueOfRGB 1023) scenario).
  discriminate.
Defined.

(** X5.  Each array getter of the header overwrites the first six elements
    of the caller's buffer with the stored member and leaves the rest of
    the buffer and the object as they were; [GetTestMean] and [GetTestVar]
    do so with the first three. *)
Theorem getters_fill_a_prefix (x : list Q) (y : list N) (s : Filter) :
  well_sized s → (6 ≤ length x)%nat → (3 ≤ length y)%nat →
  GetMean x s = Returns (m_Mean s ++ drop 6 x) s ∧
  GetVar x s = Returns (m_Var s ++ drop 6 x) s ∧
  GetMeanPercentError x s = Returns (m_MeanPercentError s ++ drop 6 x) s ∧
  GetVarPercentError x s = Returns (m_VarPercentError s ++ drop 6 x) s ∧
  GetMeanTolerance x s = Returns (m_MeanTolerance s ++ drop 6 x) s ∧
  GetVarTolerance x s = Returns (m_VarTolerance s ++ drop 6 x) s ∧
  GetTestMean y s = Returns (m_TestMean s ++ drop 3 y) s ∧
  GetTestVar y s = Returns (m_TestVar s ++ drop 3 y) s.
Proof.
  intros (HM & HV & HMT & HVT & HMP & HVP & HTM & HTV) Hx Hy.
  assert (Hfill : ∀ m : list Q, length m = 6%nat →
            copy_array 6 m x = m ++ drop 6 x).
  { intros m Hm. rewrite copy_array_prefix by lia.
    rewrite firstn_all2 by lia. reflexivity. }
  assert (Hthree : ∀ m : list N, length m = 3%nat →
            <[2%nat := m !!! 2%nat]>
              (<[1%nat := m !!! 1%nat]> (<[0%nat := m !!! 0%nat]> y))
            = m ++ drop 3 y).
  { intros m Hm. rewrite store3_prefix by exact Hy.
    do 3 (destruct m as [|? m]; [discriminate Hm|]).
    destruct m; [reflexivity|discriminate Hm]. }
  unfold GetMean, GetVar, GetMeanPercentError, GetVarPercentError,
    GetMeanTolerance, GetVarTolerance, GetTestMean, GetTestVar, read.
  rewrite !Hfill, !Hthree by assumption. repeat split.
Qed.

Lemma getters_fill_a_prefix_witness :
  GetMean [7; 7; 7; 7; 7; 7; 8; 9] scenario
  = Returns ([100; 100; 100; 0; 0; 100] ++ [8; 9]) scenario.
Proof.
  destruct (getters_fill_a_prefix [7; 7; 7; 7; 7; 7; 8; 9] [0%N; 0%N; 0%N]
              scenario scenario_well_sized) as [H _].
  - simpl. lia.
  - simpl. lia.
  - exact H.
Defined.

(** X6.  [SetMean] and [SetVar] read the first six elements of their
    argument and nothing else: with a longer array the member becomes its
    first six elements. *)
Theorem array_setters_read_a_prefix (x : list Q) (s : Filter) :
  well_sized s → (6 ≤ length x)%nat →
  SetMean x s = Returns tt (with_Mean (take 6 x) s) ∧
  SetVar x s = Returns tt (with_Var (take 6 x) s).
Proof.
  intros (HM & HV & _) Hx.
  rewrite SetMean_returns, SetVar_returns.
  rewrite !copy_array_prefix by lia.
  rewrite !drop_ge by lia. rewrite !app_nil_r. split; reflexivity.
Qed.

Lemma array_setters_read_a_prefix_witness :
  SetMean [1; 2; 3; 4; 5; 6; 7; 8] scenario
  = Returns tt (with_Mean [1; 2; 3; 4; 5; 6] scenario).
Proof.
  destruct (array_setters_read_a_prefix [1; 2; 3; 4; 5; 6; 7; 8] scenario
              scenario_well_sized) as [H _].
  - simpl. lia.
  - exact H.
Defined.

Lemma call_setter_returns (c : HeaderSetter) (s : Filter) :
  ∃ s', call_setter c s = Returns tt s' ∧
        derived_members s' = derived_members s ∧
        (well_sized s → well_sized s') ∧
        (is_SetMaxValueOfRGB c = false →
         m_MTime s' = m_MTime s ∧ m_MaxValueOfRGB s' = m_MaxValueOfRGB s).
Proof.
  destruct c; simpl.
  - eexists. split; [apply SetMean_returns|]. split; [reflexivity|].
    split; [|intros _; split; reflexivity]. intros Hs.
    exact (SetMean_well_sized x s _ Hs (SetMean_returns x s)).
  - eexists. split; [apply SetVar_returns|]. split; [reflexivity|].
    split; [|intros _; split; reflexivity]. intros Hs.
    exact (SetVar_well_sized x s _ Hs (SetVar_returns x s)).
  - rewrite SetMaxValueOfRGB_unfold.
    destruct (Qeq_bool (m_MaxValueOfRGB s) v);
      (eexists; split; [reflexivity|]); simpl;
      (split; [reflexivity|]);
      (split; [intros Hs; exact Hs|intros E; discriminate E]).
  - eexists. split; [apply SetTestMean_returns|]. split; [reflexivity|].
    split; [|intros _; split; reflexivity].
    unfold well_sized. simpl. rewrite !length_insert. intros Hs; exact Hs.
  - eexists. split; [apply SetTestVar_returns|]. split; [reflexivity|].
    split; [|intros _; split; reflexivity].
    unfold well_sized. simpl. rewrite !length_insert. intros Hs; exact Hs.
Qed.

(** X9.  Whatever setters of the header a client calls, in whatever order
    and with whatever arguments, every call returns, the arrays keep their
    declared sizes, and the tolerance arrays, the percent-error arrays and
    the working image are at the end what they were at the start. *)
Theorem header_setters_keep_derived_members (cs : list HeaderSetter) (s : Filter) :
  ∃ s', call_setters cs s = Returns tt s' ∧
        derived_members s' = derived_members s ∧
        (well_sized s → well_sized s').
Proof.
  revert s. induction cs as [|c cs IH]; intros s.
  - exists s. split; [reflexivity|]. split; [reflexivity|]. intros Hs; exact Hs.
  - destruct (call_setter_returns c s) as (s1 & E1 & D1 & W1 & _).
    destruct (IH s1) as (s' & E' & D' & W').
    exists s'. split; [|split].
    + simpl. unfold mbind, method_bind. rewrite E1. exact E'.
    + rewrite D'. exact D1.
    + intros Hs. exact (W' (W1 Hs)).
Qed.

(** X10.  A sequence of calls to [SetMean], [SetVar], [SetTestMean] and
    [SetTestVar], with no call to [SetMaxValueOfRGB] among them, never
    reaches [Modified()]: every call returns and the modification time and
    the maximum value are at the end exactly what they were at the start. *)
Theorem array_setters_never_mark_modified (cs : list HeaderSetter) (s : Filter) :
  existsb is_SetMaxValueOfRGB cs = false →
  ∃ s', call_setters cs s = Returns tt s' ∧
        m_MTime s' = m_MTime s ∧
        m_MaxValueOfRGB s' = m_MaxValueOfRGB s.
Proof.
  revert s. induction cs as [|c cs IH]; intros s Hnone.
  - exists s. split; [reflexivity|]. split; reflexivity.
  - simpl in Hnone. apply orb_false_iff in Hnone as [Hc Hcs].
    destruct (call_setter_returns c s) as (s1 & E1 & _ & _ & F1).
    destruct (F1 Hc) as [T1 M1].
    destruct (IH s1 Hcs) as (s' & E' & T' & M').
    exists s'. split; [|split].
    + simpl. unfold mbind, method_bind. rewrite E1. exact E'.
    + rewrite T'. exact T1.
    + rewrite M'. exact M1.
Qed.

Lemma array_setters_never_mark_modified_witness :
  ∃ s', call_setters [CallSetMean [1; 2; 3; 4; 5; 6]; CallSetTestVar 3 4 5;
                      CallSetVar [0; 0; 0; 1; 1; 1]] scenario = Returns tt s' ∧
        m_MTime s' = m_MTime scenario ∧
        m_MaxValueOfRGB s' = m_MaxValueOfRGB scenario.
Proof.
  apply (array_setters_never_mark_modified
           [CallSetMean [1; 2; 3; 4; 5; 6]; CallSetTestVar 3 4 5;
            CallSetVar [0; 0; 0; 1; 1; 1]] scenario).
  reflexivity.
Defined.

(** * The macros of [itkMacro.h] *)

(** [SetMaxValueOfRGB] and [GetMaxValueOfRGB] are the expansions of
    [itkSetMacro] and [itkGetMacro] for the member [m_MaxValueOfRGB]. *)
Lemma SetMaxValueOfRGB_expands_itkSetMacro (v : Q) (s : Filter) :
  SetMaxValueOfRGB v s =
  Returns tt (itkSetMacro m_MaxValueOfRGB with_MaxValueOfRGB
                (λ this, with_MTime (N.succ (m_MTime this)) this) Qneq_bool v s) ∧
  GetMaxValueOfRGB s = Returns (itkGetMacro m_MaxValueOfRGB s) s.
Proof.
  rewrite SetMaxValueOfRGB_unfold. unfold itkSetMacro, Qneq_bool.
  destruct (Qeq_bool (m_MaxValueOfRGB s) v); split; reflexivity.
Qed.

Lemma Qneq_bool_irrefl (a : Q) : Qneq_bool a a = false.
Proof. unfold Qneq_bool. rewrite Qeq_bool_refl. reflexivity. Qed.

Lemma Qneq_bool_sym (a b : Q) : Qneq_bool a b = Qneq_bool b a.
Proof. unfold Qneq_bool. rewrite Qeq_bool_comm. reflexivity. Qed.


Section BuiltinMacroFacts.

Context {Self T : Type}.
Variable get_member : Self → T.
Variable set_member : T → Self → Self.
Variable modified : Self → Self.
Variable differs : T → T → bool.

(** What a member of a class gives: an assignment is read back, and
    [Modified()] does not touch the member. *)
Hypothesis get_set : ∀ v this, get_member (set_member v this) = v.
Hypothesis get_modified : ∀ this, get_member (modified this) = get_member this.

(** [a != a] is false. *)
Hypothesis differs_irrefl : ∀ a, differs a a = false.

(** X11.  In any class and for any type whose [!=] is false on equal
    operands, after [Set##name(v)] the getter returns a value that does not
    differ from [v], a call that finds such a value stored changes nothing,
    and so a repeated call changes nothing. *)
Theorem itkSetMacro_settles (_arg : T) (this : Self) :
  differs (itkGetMacro get_member
             (itkSetMacro get_member set_member modified differs _arg this))
          _arg = false ∧
  (differs (get_member this) _arg = false →
   itkSetMacro get_member set_member modified differs _arg this = this) ∧
  itkSetMacro get_member set_member modified differs _arg
    (itkSetMacro get_member set_member modified differs _arg this)
  = itkSetMacro get_member set_member modified differs _arg this.
Proof.
  unfold itkGetMacro.
  assert (Hstored : differs (get_member
            (itkSetMacro get_member set_member modified differs _arg this))
            _arg = false).
  { unfold itkSetMacro.
    destruct (differs (get_member this) _arg) eqn:E; [|exact E].
    rewrite get_modified, get_set. apply differs_irrefl. }
  split; [exact Hstored|]. split.
  - intros E. unfold itkSetMacro. rewrite E. reflexivity.
  - unfold itkSetMacro at 1. rewrite Hstored. reflexivity.
Qed.

End BuiltinMacroFacts.

Lemma itkSetMacro_settles_witness :
  itkSetMacro m_MaxValueOfRGB with_MaxValueOfRGB
    (λ this, with_MTime (N.succ (m_MTime this)) this) Qneq_bool 1023
    (itkSetMacro m_MaxValueOfRGB with_MaxValueOfRGB
       (λ this, with_MTime (N.succ (m_MTime this)) this) Qneq_bool 1023 scenario)
  = itkSetMacro m_MaxValueOfRGB with_MaxValueOfRGB
      (λ this, with_MTime (N.succ (m_MTime this)) this) Qneq_bool 1023 scenario.
Proof.
  apply (itkSetMacro_settles m_MaxValueOfRGB with_MaxValueOfRGB
           (λ this, with_MTime (N.succ (m_MTime this)) this) Qneq_bool).
  - reflexivity.
  - reflexivity.
  - exact Qneq_bool_irrefl.
Defined.

Section ClampMacroFacts.

Context {Self T : Type}.
Variable get_member : Self → T.
Variable set_member : T → Self → Self.
Variable modified : Self → Self.
Variable differs less greater : T → T → bool.

(** [a <= b] on [type]. *)
Variable le : T → T → Prop.

Hypothesis get_set : ∀ v this, get_member (set_member v this) = v.
Hypothesis get_modified : ∀ this, get_member (modified this) = get_member this.

(** The operators are those of a total order: [a <= a]; when [a < b] is
    false then [b <= a], when [a > b] is false then [a <= b]; [a != a] is
    false, and values that do not differ compare alike.  The integer types
    meet this, and so do doubles other than NaN; a NaN makes both comparisons
    false without being ordered with anything. *)
Hypothesis le_refl : ∀ a, le a a.
Hypothesis less_false : ∀ a b, less a b = false → le b a.
Hypothesis greater_false : ∀ a b, greater a b = false → le a b.
Hypothesis differs_irrefl : ∀ a, differs a a = false.
Hypothesis differs_false :
  ∀ a b, differs a b = false → ∀ c, (le c b → le c a) ∧ (le b c → le a c).




End ClampMacroFacts.



Section StringMacroFacts.

Context {Self : Type}.
Variable get_member : Self → string.
Variable set_member : string → Self → Self.
Variable modified : Self → Self.

Hypothesis get_set : ∀ v this, get_member (set_member v this) = v.
Hypothesis get_modified : ∀ this, get_member (modified this) = get_member this.

(** X13.  The setter of [itkSetStringMacro] cannot store a new string.  With
    a non-null argument that differs from the stored string it returns at
    once and the object is as before; with one that equals the stored string
    it stores it again and marks the object modified; so after a call with
    a non-null argument the getter returns what it returned before.  Only
    the null pointer changes the string, to the empty string. *)
Theorem itkSetStringMacro_keeps_the_string (a : string) (this : Self) :
  (a ≠ get_member this →
   itkSetStringMacro get_member set_member modified (Some a) this = this) ∧
  (a = get_member this →
   itkSetStringMacro get_member set_member modified (Some a) this
   = modified (set_member a this)) ∧
  itkGetStringMacro get_member
    (itkSetStringMacro get_member set_member modified (Some a) this)
  = itkGetStringMacro get_member this ∧
  itkGetStringMacro get_member
    (itkSetStringMacro get_member set_member modified None this)
  = EmptyString.
Proof.
  unfold itkGetStringMacro, itkSetStringMacro.
  destruct (String.eqb a (get_member this)) eqn:E; simpl.
  - apply String.eqb_eq in E. repeat split.
    + intros Hne. contradiction.
    + rewrite get_modified, get_set. exact E.
    + rewrite get_modified, get_set. reflexivity.
  - apply String.eqb_neq in E. repeat split.
    + intros Heq. contradiction.
    + rewrite get_modified, get_set. reflexivity.
Qed.

End StringMacroFacts.

Lemma itkSetStringMacro_keeps_the_string_witness :
  itkGetStringMacro m_FileName
    (itkSetStringMacro m_FileName host_set_FileName host_modified
       (Some "new.png"%string)
       (mkMacroHost "old.png"%string [1; 1] None 0))
  = "old.png"%string.
Proof.
  apply (itkSetStringMacro_keeps_the_string m_FileName host_set_FileName
           host_modified ltac:(reflexivity) ltac:(reflexivity)
           "new.png"%string (mkMacroHost "old.png"%string [1; 1] None 0)).
Defined.

Section VectorMacroFacts.

Context {Self T : Type} `{Inhabited T}.
Variable get_member : Self → list T.
Variable set_member : list T → Self → Self.
Variable modified : Self → Self.
Variable differs : T → T → bool.

Hypothesis get_set : ∀ v this, get_member (set_member v this) = v.
Hypothesis get_modified : ∀ this, get_member (modified this) = get_member this.
Hypothesis differs_irrefl : ∀ a, differs a a = false.
Hypothesis differs_sym : ∀ a b, differs a b = differs b a.

(** The scanning loop stops at the first index whose elements differ, or
    runs to the end over elements that do not. *)
Lemma scan_difference_spec (data member : list T) (i remaining : nat) :
  let r := scan_difference differs data member i remaining in
  (i ≤ r ≤ i + remaining)%nat ∧
  (∀ j, (i ≤ j < r)%nat → differs (data !!! j) (member !!! j) = false) ∧
  ((r < i + remaining)%nat → differs (data !!! r) (member !!! r) = true).
Proof.
  revert i. induction remaining as [|n IH]; intros i; simpl.
  - split; [lia|]. split; intros; lia.
  - destruct (differs (data !!! i) (member !!! i)) eqn:E.
    + split; [lia|]. split; [intros; lia|]. intros _. exact E.
    + destruct (IH (Datatypes.S i)) as (Hr & Hsame & Hdiff).
      split; [lia|]. split.
      * intros j Hj. destruct (decide (j = i)) as [->|Hne]; [exact E|].
        apply Hsame. lia.
      * intros Hlt. apply Hdiff. lia.
Qed.

Lemma get_assign (i : nat) (v : T) (this : Self) :
  get_member (assign get_member set_member i v this)
  = <[i := v]> (get_member this).
Proof. unfold assign. apply get_set. Qed.

(** The copying loop, element by element. *)
Lemma assign_loop_lookup (data : list T) (start count : nat) (this : Self) (j : nat) :
  get_member (for_loop (λ i this', assign get_member set_member i (data !!! i) this')
                start count this) !! j
  = if decide (start ≤ j < start + count ∧ j < length (get_member this))%nat
    then Some (data !!! j)
    else get_member this !! j.
Proof.
  revert start this. induction count as [|n IH]; intros start this; simpl.
  - rewrite decide_False by lia. reflexivity.
  - rewrite IH, !get_assign, length_insert.
    destruct (decide (j = start)) as [->|Hne].
    + destruct (decide (start < length (get_member this))%nat) as [Hlt|Hge].
      * rewrite decide_False by lia. rewrite decide_True by lia.
        apply list_lookup_insert_eq, Hlt.
      * rewrite decide_False by lia. rewrite decide_False by lia.
        rewrite list_insert_ge by lia. reflexivity.
    + rewrite list_lookup_insert_ne by congruence.
      destruct (decide (Datatypes.S start ≤ j < Datatypes.S start + n
                        ∧ j < length (get_member this))%nat).
      * rewrite decide_True by lia. reflexivity.
      * rewrite decide_False by lia. reflexivity.
Qed.

(** X14.  [itkSetVectorMacro]'s setter, for [count] within both arrays:
    afterwards none of the first [count] elements of the member differs
    from the corresponding element of [data], the elements from [count] on
    are as before, and when none of the first [count] elements differed
    already the object is untouched. *)
Theorem itkSetVectorMacro_effect (count : nat) (data : list T) (this : Self) :
  (count ≤ length data)%nat → (count ≤ length (get_member this))%nat →
  (∀ j, (j < count)%nat →
     differs (data !!! j)
       (get_member (itkSetVectorMacro get_member set_member modified differs
                      count data this) !!! j) = false) ∧
  (∀ j, (count ≤ j)%nat →
     get_member (itkSetVectorMacro get_member set_member modified differs
                   count data this) !! j
     = get_member this !! j) ∧
  ((∀ j, (j < count)%nat →
      differs (data !!! j) (get_member this !!! j) = false) →
   itkSetVectorMacro get_member set_member modified differs count data this
   = this).
Proof.
  intros Hdata Hmember. unfold itkSetVectorMacro. cbv zeta.
  destruct (scan_difference_spec data (get_member this) 0 count)
    as (Hr & Hsame & Hdiff).
  destruct (Nat.ltb_spec (scan_difference differs data (get_member this) 0 count)
              count) as [Hlt|Hge].
  - split; [|split].
    + intros j Hj. rewrite (list_lookup_total_alt (get_member _)), assign_loop_lookup.
      rewrite get_modified. rewrite decide_True by lia. simpl.
      apply differs_irrefl.
    + intros j Hj. rewrite assign_loop_lookup, get_modified.
      rewrite decide_False by lia. reflexivity.
    + intros Hall. assert (Hd := Hdiff ltac:(lia)).
      rewrite Hall in Hd by lia. discriminate Hd.
  - split; [|split].
    + intros j Hj. apply Hsame. lia.
    + intros j Hj. reflexivity.
    + intros _. reflexivity.
Qed.

(** X15.  The setters of [itkSetVector2Macro], [itkSetVector3Macro],
    [itkSetVector4Macro] and [itkSetVector6Macro], called with an array,
    do to the object what [itkSetVectorMacro]'s setter does with that
    array and the count 2, 3, 4 or 6, for a type whose [!=] is symmetric. *)
Theorem itkSetVector_macros_agree (data : list T) (this : Self) :
  itkSetVector2Macro_array get_member set_member modified differs data this
  = itkSetVectorMacro get_member set_member modified differs 2 data this ∧
  itkSetVector3Macro_array get_member set_member modified differs data this
  = itkSetVectorMacro get_member set_member modified differs 3 data this ∧
  itkSetVector4Macro_array get_member set_member modified differs data this
  = itkSetVectorMacro get_member set_member modified differs 4 data this ∧
  itkSetVector6Macro_array get_member set_member modified differs data this
  = itkSetVectorMacro get_member set_member modified differs 6 data this.
Proof.
  unfold itkSetVector2Macro_array, itkSetVector2Macro,
    itkSetVector3Macro_array, itkSetVector3Macro,
    itkSetVector4Macro_array, itkSetVector4Macro,
    itkSetVector6Macro_array, itkSetVector6Macro, itkSetVectorMacro.
  cbn [scan_difference for_loop].
  rewrite !(differs_sym (get_member this !!! _) (data !!! _)).
  repeat split;
    repeat match goal with
           | |- context [differs (data !!! ?i) (get_member this !!! ?i)] =>
               destruct (differs (data !!! i) (get_member this !!! i))
           end; reflexivity.
Qed.

(** X16.  For a type whose [!=] is false on equal operands and a member
    array of the declared size: after the setter of [itkSetVector3Macro] or
    [itkSetVector6Macro] the getter with reference arguments returns values
    none of which differs from the argument given for it. *)
Theorem itkSetVector_then_Get (a1 a2 a3 a4 a5 a6 : T) (this : Self) :
  (3 ≤ length (get_member this) →
   let '(r1, r2, r3) :=
     itkGetVector3Macro get_member
       (itkSetVector3Macro get_member set_member modified differs a1 a2 a3 this) in
   differs r1 a1 = false ∧ differs r2 a2 = false ∧ differs r3 a3 = false)%nat ∧
  (6 ≤ length (get_member this) →
   let '(r1, r2, r3, r4, r5, r6) :=
     itkGetVector6Macro get_member
       (itkSetVector6Macro get_member set_member modified differs
          a1 a2 a3 a4 a5 a6 this) in
   differs r1 a1 = false ∧ differs r2 a2 = false ∧ differs r3 a3 = false ∧
   differs r4 a4 = false ∧ differs r5 a5 = false ∧ differs r6 a6 = false)%nat.
Proof.
  split; intros Hlen.
  - unfold itkGetVector3Macro, itkSetVector3Macro.
    destruct (differs (get_member this !!! 0%nat) a1) eqn:E1;
      destruct (differs (get_member this !!! 1%nat) a2) eqn:E2;
      destruct (differs (get_member this !!! 2%nat) a3) eqn:E3;
      cbn [orb]; try (repeat split; assumption);
      unfold assign; rewrite !get_set, get_modified;
      destruct (get_member this) as [|x1 [|x2 [|x3 l]]];
      try (simpl in Hlen; lia);
      cbn; repeat split; apply differs_irrefl.
  - unfold itkGetVector6Macro, itkSetVector6Macro.
    destruct (differs (get_member this !!! 0%nat) a1) eqn:E1;
      destruct (differs (get_member this !!! 1%nat) a2) eqn:E2;
      destruct (differs (get_member this !!! 2%nat) a3) eqn:E3;
      destruct (differs (get_member this !!! 3%nat) a4) eqn:E4;
      destruct (differs (get_member this !!! 4%nat) a5) eqn:E5;
      destruct (differs (get_member this !!! 5%nat) a6) eqn:E6;
      cbn [orb]; try (repeat split; assumption);
      unfold assign; rewrite !get_set, get_modified;
      destruct (get_member this) as [|x1 [|x2 [|x3 [|x4 [|x5 [|x6 l]]]]]];
      try (simpl in Hlen; lia);
      cbn; repeat split; apply differs_irrefl.
Qed.

End VectorMacroFacts.

Lemma itkSetVectorMacro_effect_witness :
  m_Spacing (itkSetVectorMacro m_Spacing host_set_Spacing host_modified
               Qneq_bool 2 [3; 4] (mkMacroHost EmptyString [1; 1; 1] None 0))
    !! 2%nat
  = [1; 1; 1] !! 2%nat.
Proof.
  destruct (itkSetVectorMacro_effect m_Spacing host_set_Spacing host_modified
              Qneq_bool ltac:(reflexivity) ltac:(reflexivity) Qneq_bool_irrefl
              2 [3; 4] (mkMacroHost EmptyString [1; 1; 1] None 0))
    as (_ & Hrest & _).
  - simpl. lia.
  - simpl. lia.
  - apply Hrest. lia.
Defined.

Lemma itkSetVector_macros_agree_witness :
  itkSetVector3Macro_array m_Spacing host_set_Spacing host_modified Qneq_bool
    [3; 4; 5] (mkMacroHost EmptyString [1; 1; 1] None 0)
  = itkSetVectorMacro m_Spacing host_set_Spacing host_modified Qneq_bool
      3 [3; 4; 5] (mkMacroHost EmptyString [1; 1; 1] None 0).
Proof.
  apply (itkSetVector_macros_agree m_Spacing host_set_Spacing host_modified
           Qneq_bool Qneq_bool_sym [3; 4; 5]
           (mkMacroHost EmptyString [1; 1; 1] None 0)).
Defined.

Lemma itkSetVector_then_Get_witness :
  let '(r1, r2, r3) :=
    itkGetVector3Macro m_Spacing
      (itkSetVector3Macro m_Spacing host_set_Spacing host_modified Qneq_bool
         3 4 5 (mkMacroHost EmptyString [1; 1; 1] None 0)) in
  Qneq_bool r1 3 = false ∧ Qneq_bool r2 4 = false ∧ Qneq_bool r3 5 = false.
Proof.
  destruct (itkSetVector_then_Get m_Spacing host_set_Spacing host_modified
              Qneq_bool ltac:(reflexivity) ltac:(reflexivity) Qneq_bool_irrefl
              3 4 5 0 0 0 (mkMacroHost EmptyString [1; 1; 1] None 0))
    as [Hthree _].
  apply Hthree. simpl. lia.
Defined.

Lemma references_held_app (calls calls' : list ReferenceCall) (object : positive) :
  references_held (calls ++ calls') object
  = (references_held calls object + references_held calls' object)%Z.
Proof.
  induction calls as [|[o|o] calls IH]; simpl; [reflexivity| |];
    rewrite IH; lia.
Qed.

Section ObjectMacroFacts.

Context {Self : Type}.
Variable get_member : Self → option positive.
Variable set_member : option positive → Self → Self.
Variable modified : Self → Self.

Hypothesis get_set : ∀ v this, get_member (set_member v this) = v.
Hypothesis get_modified : ∀ this, get_member (modified this) = get_member this.

(** One call of the setter keeps the balance of references. *)
Lemma itkSetObjectMacro_keeps_balance (_arg : option positive)
    (this : Self) (calls : list ReferenceCall) :
  holds_one_reference (get_member this) calls →
  holds_one_reference
    (get_member (itkSetObjectMacro get_member set_member modified _arg
                   (this, calls)).1)
    (itkSetObjectMacro get_member set_member modified _arg (this, calls)).2.
Proof.
  intros Hinv. unfold itkSetObjectMacro.
  destruct (bool_decide (get_member this ≠ _arg)) eqn:Hne; [|exact Hinv].
  apply bool_decide_eq_true in Hne. cbn [fst snd].
  rewrite get_modified, get_set. intros object.
  specialize (Hinv object).
  destruct (get_member this) as [old|]; destruct _arg as [new|];
    rewrite ?references_held_app; simpl; rewrite Hinv;
    repeat case_bool_decide; simplify_eq; try lia; congruence.
Qed.

(** X17.  Reference counting through [itkSetObjectMacro]'s setter: starting
    from a null member with no call made, after any sequence of calls to
    the setter the object the member points to has been registered exactly
    once more than unregistered, and every other object has been
    unregistered as often as registered. *)
Theorem itkSetObjectMacro_reference_balance (args : list (option positive))
    (this : Self) :
  get_member this = None →
  let final := foldl (λ state _arg,
                  itkSetObjectMacro get_member set_member modified _arg state)
                 (this, []) args in
  ∀ object,
    references_held final.2 object
    = if bool_decide (itkGetObjectMacro get_member final.1 = Some object)
      then 1%Z else 0%Z.
Proof.
  intros Hnull. unfold itkGetObjectMacro.
  assert (Hinv : holds_one_reference (get_member (this, @nil ReferenceCall).1)
                   (this, @nil ReferenceCall).2).
  { intros object. simpl. rewrite Hnull. reflexivity. }
  revert Hinv. generalize (this, @nil ReferenceCall).
  induction args as [|a args IH]; intros state Hinv; simpl.
  - exact Hinv.
  - apply IH. destruct state as [this' calls'].
    apply itkSetObjectMacro_keeps_balance. exact Hinv.
Qed.

End ObjectMacroFacts.

Lemma itkSetObjectMacro_reference_balance_witness :
  references_held
    (foldl (λ state _arg,
        itkSetObjectMacro m_Points host_set_Points host_modified _arg state)
       (mkMacroHost EmptyString [] None 0, [])
       [Some 5%positive; Some 7%positive; Some 7%positive; None; Some 5%positive]).2
    5%positive
  = 1%Z.
Proof.
  apply (itkSetObjectMacro_reference_balance m_Points host_set_Points
           host_modified ltac:(reflexivity) ltac:(reflexivity)
           [Some 5%positive; Some 7%positive; Some 7%positive; None; Some 5%positive]
           (mkMacroHost EmptyString [] None 0) eq_refl 5%positive).
Defined.

Section BooleanMacroFacts.

Context {Self : Type}.
Variable get_member : Self → bool.
Variable set_member : bool → Self → Self.
Variable modified : Self → Self.

Hypothesis get_set : ∀ v this, get_member (set_member v this) = v.
Hypothesis get_modified : ∀ this, get_member (modified this) = get_member this.

(** X18.  For a flag with [itkSetMacro(name,bool)] and
    [itkBooleanMacro(name)]: after [nameOn()] the getter returns true, after
    [nameOff()] false, and [nameOn()] on an object whose flag is already on
    (or [nameOff()] on one whose flag is off) leaves the object untouched,
    not marked modified. *)
Theorem itkBooleanMacro_switches (this : Self) :
  itkGetMacro get_member
    (itkBooleanMacro_On (itkSetMacro get_member set_member modified xorb) this)
  = true ∧
  itkGetMacro get_member
    (itkBooleanMacro_Off (itkSetMacro get_member set_member modified xorb) this)
  = false ∧
  (get_member this = true →
   itkBooleanMacro_On (itkSetMacro get_member set_member modified xorb) this
   = this) ∧
  (get_member this = false →
   itkBooleanMacro_Off (itkSetMacro get_member set_member modified xorb) this
   = this).
Proof.
  unfold itkBooleanMacro_On, itkBooleanMacro_Off, itkSetMacro, itkGetMacro.
  destruct (get_member this) eqn:E; simpl;
    rewrite ?get_modified, ?get_set;
    (split; [first [reflexivity | exact E]|]);
    (split; [first [reflexivity | exact E]|]);
    split; intros E'; first [reflexivity | discriminate E'].
Qed.

End BooleanMacroFacts.

Lemma itkBooleanMacro_switches_witness :
  itkGetMacro (λ p : bool * N, p.1)
    (itkBooleanMacro_On
       (itkSetMacro (λ p : bool * N, p.1) (λ v p, (v, p.2))
          (λ p, (p.1, N.succ p.2)) xorb) (false, 0%N))
  = true.
Proof.
  apply (itkBooleanMacro_switches (λ p : bool * N, p.1) (λ v p, (v, p.2))
           (λ p, (p.1, N.succ p.2)) ltac:(reflexivity) ltac:(reflexivity)
           (false, 0%N)).
Defined.
